(** * pydocs: the introspection engine (src/pydocs/inspector.py, models.py)

    A shallow embedding of the path resolver, the classifier, the signature
    and source extractors, the namespace and class inspectors and the result
    assembler, over an abstract reflection provider (importlib, inspect,
    pkgutil and the attribute protocol of the running interpreter). *)

From Stdlib Require Import String Ascii List Bool Arith ZArith Lia.
From Stdlib Require Import Sorted Permutation.
Import ListNotations.
Open Scope string_scope.
Open Scope list_scope.

(** ** Exceptions and the error monad *)

Module Exc.

(** The exception classes the handlers of inspector.py discriminate on, with
    their place in the built-in hierarchy.  [RuntimeError] stands for any
    other subclass of [Exception]; [SystemExit] and [KeyboardInterrupt]
    derive from [BaseException] only. *)
Inductive exc_type : Type :=
| BaseException
| Exception
| ImportError
| ModuleNotFoundError
| AttributeError
| ValueError
| TypeError
| OSError
| RuntimeError
| SystemExit
| KeyboardInterrupt.

Definition exc_type_eqb (c d : exc_type) : bool :=
  match c, d with
  | BaseException, BaseException | Exception, Exception
  | ImportError, ImportError | ModuleNotFoundError, ModuleNotFoundError
  | AttributeError, AttributeError | ValueError, ValueError
  | TypeError, TypeError | OSError, OSError | RuntimeError, RuntimeError
  | SystemExit, SystemExit | KeyboardInterrupt, KeyboardInterrupt => true
  | _, _ => false
  end.

(** The direct base class. *)
Definition base (c : exc_type) : option exc_type :=
  match c with
  | BaseException => None
  | Exception | SystemExit | KeyboardInterrupt => Some BaseException
  | ModuleNotFoundError => Some ImportError
  | ImportError | AttributeError | ValueError | TypeError | OSError
  | RuntimeError => Some Exception
  end.

Fixpoint issubclass_fuel (n : nat) (c d : exc_type) : bool :=
  exc_type_eqb c d ||
  match n with
  | O => false
  | S n' => match base c with
            | Some b => issubclass_fuel n' b d
            | None => false
            end
  end.

(** The hierarchy above has depth three. *)
Definition issubclass : exc_type -> exc_type -> bool := issubclass_fuel 3.

(** A raised exception: its class, the text [str(e)] yields and, for an
    exception whose [__str__] itself raises, the exception that [str(e)]
    raises instead of yielding the text. *)
#[local] Set Warnings "-register-all".
Inductive exn : Type :=
| Exn (c : exc_type) (msg : string) (str_raises : option exn).

Definition exc_class (e : exn) : exc_type := match e with Exn c _ _ => c end.
Definition exc_msg (e : exn) : string := match e with Exn _ m _ => m end.
Definition exc_str_raises (e : exn) : option exn :=
  match e with Exn _ _ r => r end.

(** An exception with a message, as the built-in classes have it. *)
Definition mk_exn (c : exc_type) (msg : string) : exn := Exn c msg None.

Definition isinstance (e : exn) (c : exc_type) : bool :=
  issubclass (exc_class e) c.

(** [except (C1, C2, ...)] *)
Definition catches (cs : list exc_type) (e : exn) : bool :=
  existsb (isinstance e) cs.

Inductive result (A : Type) : Type :=
| Ok (a : A)
| Raise (e : exn).
Arguments Ok {A} a.
Arguments Raise {A} e.

(** [str(e)] *)
Definition str_exc (e : exn) : result string :=
  match exc_str_raises e with
  | None => Ok (exc_msg e)
  | Some e' => Raise e'
  end.

Definition bind {A B : Type} (c : result A) (k : A -> result B) : result B :=
  match c with
  | Ok a => k a
  | Raise e => Raise e
  end.

(** [try: c  except cs as e: h e] *)
Definition try_except {A : Type} (c : result A) (cs : list exc_type)
    (h : exn -> result A) : result A :=
  match c with
  | Ok a => Ok a
  | Raise e => if catches cs e then h e else Raise e
  end.

Fixpoint mapM {A B : Type} (f : A -> result B) (l : list A) : result (list B) :=
  match l with
  | [] => Ok []
  | x :: xs => bind (f x) (fun y => bind (mapM f xs) (fun ys => Ok (y :: ys)))
  end.

Definition returns {A : Type} (c : result A) : Prop := exists a, c = Ok a.

End Exc.
Import Exc.

Declare Scope py_scope.
Notation "x <- c ;; k" := (bind c (fun x => k))
  (at level 61, c at next level, right associativity) : py_scope.
Notation "' pat <- c ;; k" := (bind c (fun x => match x with pat => k end))
  (at level 61, pat pattern, c at next level, right associativity) : py_scope.
Open Scope py_scope.

(** ** Python string operations used by the inspector

    A [str] is held as the bytes of its UTF-8 encoding.  Splitting at and
    searching for an ASCII character, prefixes and suffixes, equality and
    the order of two texts are on the bytes what they are on the
    characters; the length and the slices count characters, that is bytes
    that are not continuation bytes.  [str.isupper] follows the case
    properties of the Unicode database: it is asked of the provider. *)

Module PyStr.

Definition dot : ascii := "."%char.

(** [s.split(sep)] for a one-character separator: never empty, and the
    empty string splits to one empty part. *)
Fixpoint split (sep : ascii) (s : string) : list string :=
  match s with
  | EmptyString => [EmptyString]
  | String c s' =>
      if Ascii.eqb c sep then EmptyString :: split sep s'
      else match split sep s' with
           | [] => [String c EmptyString]
           | w :: ws => String c w :: ws
           end
  end.

(** [sep.join(parts)] *)
Definition join (sep : string) (parts : list string) : string :=
  String.concat sep parts.

(** [c in s] for a character. *)
Fixpoint contains (c : ascii) (s : string) : bool :=
  match s with
  | EmptyString => false
  | String a s' => Ascii.eqb a c || contains c s'
  end.

(** [l[-1]] on a list known to be non-empty (the default is never used on
    the result of [split]). *)
Definition last_part (l : list string) : string := List.last l EmptyString.

Definition startswith (s pre : string) : bool := String.prefix pre s.

Definition endswith (s suf : string) : bool :=
  let n := String.length s in
  let m := String.length suf in
  (m <=? n)%nat && String.eqb (String.substring (n - m) m s) suf.

Definition is_ascii_upper (c : ascii) : bool :=
  let n := nat_of_ascii c in (65 <=? n)%nat && (n <=? 90)%nat.

Definition is_ascii_lower (c : ascii) : bool :=
  let n := nat_of_ascii c in (97 <=? n)%nat && (n <=? 122)%nat.

Fixpoint has_upper (s : string) : bool :=
  match s with
  | EmptyString => false
  | String c s' => is_ascii_upper c || has_upper s'
  end.

Fixpoint has_lower (s : string) : bool :=
  match s with
  | EmptyString => false
  | String c s' => is_ascii_lower c || has_lower s'
  end.

(** [s.isupper()] for a text of ASCII characters: at least one letter and
    no lower-case one.  It is what the example providers answer; on other
    text the answer needs the Unicode database. *)
Definition ascii_isupper (s : string) : bool :=
  has_upper s && negb (has_lower s).

(** Truthiness of a string: [if name]. *)
Definition truthy (s : string) : bool :=
  match s with EmptyString => false | _ => true end.

(** A byte [10xxxxxx], which continues a character. *)
Definition is_continuation (c : ascii) : bool :=
  let n := nat_of_ascii c in (128 <=? n)%nat && (n <? 192)%nat.

(** [len(s)]: the number of characters. *)
Fixpoint len (s : string) : nat :=
  match s with
  | EmptyString => O
  | String c s' => if is_continuation c then len s' else S (len s')
  end.

(** [s[:n]] for [n >= 0]: the first [n] characters, all of [s] when it has
    fewer. *)
Fixpoint take (n : nat) (s : string) : string :=
  match s with
  | EmptyString => EmptyString
  | String c s' =>
      if is_continuation c then String c (take n s')
      else match n with
           | O => EmptyString
           | S n' => String c (take n' s')
           end
  end.

(** [s[:stop]]: a negative [stop] counts from the end, and a bound before
    the start gives the empty text. *)
Definition slice_to (stop : Z) (s : string) : string :=
  if (0 <=? stop)%Z then take (Z.to_nat stop) s
  else take (Z.to_nat (Z.of_nat (len s) + stop)) s.

End PyStr.

(** ** Data model (models.py) *)

Inductive MemberKind : Type :=
| MODULE | PACKAGE | CLASS | FUNCTION | METHOD | CLASSMETHOD | STATICMETHOD
| PROPERTY | CONSTANT | VARIABLE | BUILTIN | DATA.

(** The twelve members of the enumeration. *)
Definition all_kinds : list MemberKind :=
  [MODULE; PACKAGE; CLASS; FUNCTION; METHOD; CLASSMETHOD; STATICMETHOD;
   PROPERTY; CONSTANT; VARIABLE; BUILTIN; DATA].

Inductive ParameterKind : Type :=
| POSITIONAL_ONLY | POSITIONAL_OR_KEYWORD | VAR_POSITIONAL | KEYWORD_ONLY
| VAR_KEYWORD.

Module ParameterInfo.
Record t : Type := mk {
  name : string;
  kind : ParameterKind;
  annotation : option string;
  default : option string;
  has_default : bool
}.
End ParameterInfo.

Module SignatureInfo.
Record t : Type := mk {
  parameters : list ParameterInfo.t;
  return_annotation : option string;
  raw_signature : option string
}.
End SignatureInfo.

Module SourceInfo.
Record t : Type := mk {
  source : option string;
  file_path : option string;
  start_line : option Z;
  end_line : option Z;
  is_builtin : bool
}.
End SourceInfo.

Module MemberInfo.
Record t : Type := mk {
  name : string;
  kind : MemberKind;
  qualified_name : string;
  docstring : option string;
  signature : option SignatureInfo.t;
  source : option SourceInfo.t;
  is_private : bool;
  is_dunder : bool;
  defining_module : option string;
  is_imported : bool;
  value_repr : option string
}.

(** [info.value_repr = r] *)
Definition set_value_repr (i : t) (r : string) : t :=
  mk (name i) (kind i) (qualified_name i) (docstring i) (signature i)
     (source i) (is_private i) (is_dunder i) (defining_module i)
     (is_imported i) (Some r).

(** [info.source = s] *)
Definition set_source (i : t) (s : SourceInfo.t) : t :=
  mk (name i) (kind i) (qualified_name i) (docstring i) (signature i)
     (Some s) (is_private i) (is_dunder i) (defining_module i)
     (is_imported i) (value_repr i).
End MemberInfo.

(** [ClassInfo] and [ModuleInfo] extend [MemberInfo]: the inherited fields
    are the [base] payload, the others the extension. *)
Module ClassInfo.
Record t : Type := mk {
  base : MemberInfo.t;
  bases : list string;
  mro : list string;
  methods : list MemberInfo.t;
  class_methods : list MemberInfo.t;
  static_methods : list MemberInfo.t;
  properties : list MemberInfo.t;
  class_variables : list MemberInfo.t;
  is_abstract : bool
}.
Definition name (c : t) : string := MemberInfo.name (base c).
Definition kind (c : t) : MemberKind := MemberInfo.kind (base c).
Definition qualified_name (c : t) : string := MemberInfo.qualified_name (base c).
End ClassInfo.

Module ModuleInfo.
Record t : Type := mk {
  base : MemberInfo.t;
  is_package : bool;
  file_path : option string;
  submodules : list string;
  classes : list ClassInfo.t;
  functions : list MemberInfo.t;
  constants : list MemberInfo.t;
  variables : list MemberInfo.t
}.
Definition name (m : t) : string := MemberInfo.name (base m).
Definition kind (m : t) : MemberKind := MemberInfo.kind (base m).
Definition qualified_name (m : t) : string := MemberInfo.qualified_name (base m).
End ModuleInfo.

(** [MemberInfo | ClassInfo | ModuleInfo] *)
Inductive Info : Type :=
| InfoMember (i : MemberInfo.t)
| InfoClass (c : ClassInfo.t)
| InfoModule (m : ModuleInfo.t).

Definition info_base (i : Info) : MemberInfo.t :=
  match i with
  | InfoMember m => m
  | InfoClass c => ClassInfo.base c
  | InfoModule m => ModuleInfo.base m
  end.

Module InspectionResult.
Record t : Type := mk {
  target : string;
  resolved_path : string;
  kind : MemberKind;
  info : Info;
  error : option string
}.
End InspectionResult.

(** A record built with only [name], [kind] and [qualified_name] given: every
    other field of the dataclass takes its default. *)
Definition MemberInfo_minimal (n : string) (k : MemberKind) (qn : string)
  : MemberInfo.t :=
  MemberInfo.mk n k qn None None None false false None false None.

(** ** The reflection provider *)

(** [inspect.Parameter.kind] *)
Inductive inspect_kind : Type :=
| I_POSITIONAL_ONLY | I_POSITIONAL_OR_KEYWORD | I_VAR_POSITIONAL
| I_KEYWORD_ONLY | I_VAR_KEYWORD.

Section Reflection.

(** Runtime objects, compared by identity. *)
Variable obj : Type.

(** [inspect.Parameter]; [None] is the [empty] sentinel. *)
Record InspectParameter : Type := mk_Parameter {
  param_name : string;
  param_kind : inspect_kind;
  param_annotation : option obj;
  param_default : option obj
}.

(** [inspect.Signature]: the ordered parameters, the return annotation and
    what [str(sig)] gives, which renders the defaults and annotations. *)
Record InspectSignature : Type := mk_Signature {
  sig_parameters : list InspectParameter;
  sig_return_annotation : option obj;
  sig_str : result string
}.

(** One row of [inspect.classify_class_attrs]. *)
Record Attribute : Type := mk_Attribute {
  attr_name : string;
  attr_kind : string;
  attr_defining_class : obj;
  attr_object : obj
}.

(** What the interpreter answers.  Every call that can run code of the
    inspected object may raise: the type tests of [inspect] and [isinstance]
    (which read [__class__]), [hasattr] and [getattr] with a default (which
    absorb [AttributeError] only), plain attribute reads, [!=], the
    enumerations and the renderings.  Identity ([is]) and [callable] run no
    code of the object. *)
Record Provider : Type := mk_Provider {
  obj_eqb : obj -> obj -> bool;                   (* [a is b] *)
  the_object : obj;                               (* the universal root *)
  ne : obj -> obj -> result bool;                 (* [a != b] *)
  import_module : string -> result obj;           (* importlib.import_module *)
  getattr : obj -> string -> result obj;
  ismodule : obj -> result bool;
  isclass : obj -> result bool;
  isbuiltin : obj -> result bool;
  isfunction : obj -> result bool;
  ismethod : obj -> result bool;
  is_classmethod : obj -> result bool;            (* isinstance(o, classmethod) *)
  is_staticmethod : obj -> result bool;
  is_property : obj -> result bool;
  is_simple : obj -> result bool; (* isinstance(o, (str, int, float, bool, NoneType, bytes, tuple)) *)
  has_path : obj -> result bool;                  (* hasattr(o, "__path__") *)
  callable : obj -> bool;
  dunder_name : obj -> result string;             (* o.__name__ *)
  type_name : obj -> result string;               (* type(o).__name__ *)
  dunder_module : obj -> result (option string);  (* getattr(o, "__module__", None) *)
  dunder_file : obj -> result (option string);    (* getattr(o, "__file__", None) *)
  dunder_bases : obj -> result (list obj);
  dunder_mro : obj -> result (list obj);
  isabstract : obj -> result bool;
  (* pkgutil.iter_modules(o.__path__): the names yielded, and the exception
     that ends the iteration early, if any *)
  iter_modules : obj -> list string * option exn;
  getmembers : obj -> result (list (string * obj));
  classify_class_attrs : obj -> result (list Attribute);
  getdoc : obj -> result (option string);
  signature : obj -> result InspectSignature;
  formatannotation : obj -> result string;
  repr : obj -> result string;
  getsource : obj -> result string;
  getsourcefile : obj -> result (option string);
  getsourcelines : obj -> result (list string * Z);
  getfile : obj -> result string;
  isupper : string -> bool                        (* name.isupper() *)
}.

End Reflection.

Arguments param_name {obj} _.
Arguments param_kind {obj} _.
Arguments param_annotation {obj} _.
Arguments param_default {obj} _.
Arguments sig_parameters {obj} _.
Arguments sig_return_annotation {obj} _.
Arguments sig_str {obj} _.
Arguments attr_name {obj} _.
Arguments attr_kind {obj} _.
Arguments attr_defining_class {obj} _.
Arguments attr_object {obj} _.
Arguments obj_eqb {obj} _.
Arguments the_object {obj} _.
Arguments ne {obj} _.
Arguments import_module {obj} _.
Arguments getattr {obj} _.
Arguments ismodule {obj} _.
Arguments isclass {obj} _.
Arguments isbuiltin {obj} _.
Arguments isfunction {obj} _.
Arguments ismethod {obj} _.
Arguments is_classmethod {obj} _.
Arguments is_staticmethod {obj} _.
Arguments is_property {obj} _.
Arguments is_simple {obj} _.
Arguments has_path {obj} _.
Arguments callable {obj} _.
Arguments dunder_name {obj} _.
Arguments type_name {obj} _.
Arguments dunder_module {obj} _.
Arguments dunder_file {obj} _.
Arguments dunder_bases {obj} _.
Arguments dunder_mro {obj} _.
Arguments isabstract {obj} _.
Arguments iter_modules {obj} _.
Arguments getmembers {obj} _.
Arguments classify_class_attrs {obj} _.
Arguments getdoc {obj} _.
Arguments signature {obj} _.
Arguments formatannotation {obj} _.
Arguments repr {obj} _.
Arguments getsource {obj} _.
Arguments getsourcefile {obj} _.
Arguments getsourcelines {obj} _.
Arguments getfile {obj} _.
Arguments isupper {obj} _.

(** ** Sorting: [sorted(xs, key=...)]

    Python's [sorted] is a stable sort; a stable insertion sort returns the
    same list. *)

Section Sorting.
Context {A : Type} (key : A -> string).

Fixpoint insert_by (x : A) (l : list A) : list A :=
  match l with
  | [] => [x]
  | y :: ys =>
      if String.leb (key x) (key y) then x :: y :: ys
      else y :: insert_by x ys
  end.

Definition sorted_by (l : list A) : list A := fold_right insert_by [] l.

Definition key_le (a b : A) : Prop := String.leb (key a) (key b) = true.

(** Ascending by key. *)
Definition ascending (l : list A) : Prop := Sorted key_le l.

End Sorting.

(** [sorted(names)] on a list of strings. *)
Definition sorted (l : list string) : list string := sorted_by (fun s => s) l.

(** ** The inspector (inspector.py) *)

Module Inspector.
Import PyStr.

(** The accumulators of the two scans. *)
Record module_buckets : Type := mk_mb {
  mb_classes : list ClassInfo.t;
  mb_functions : list MemberInfo.t;
  mb_constants : list MemberInfo.t;
  mb_variables : list MemberInfo.t
}.

Record class_buckets : Type := mk_cb {
  cb_methods : list MemberInfo.t;
  cb_class_methods : list MemberInfo.t;
  cb_static_methods : list MemberInfo.t;
  cb_properties : list MemberInfo.t;
  cb_class_variables : list MemberInfo.t
}.

Definition empty_mb : module_buckets := mk_mb [] [] [] [].
Definition empty_cb : class_buckets := mk_cb [] [] [] [] [].

(** [l[1:-1]] *)
Definition slice_1_m1 {A : Type} (l : list A) : list A := removelast (tl l).

Definition nonempty {A : Type} (l : list A) : bool :=
  match l with [] => false | _ => true end.

Definition default_max_len : Z := 80.

Definition kind_map (k : inspect_kind) : ParameterKind :=
  match k with
  | I_POSITIONAL_ONLY => POSITIONAL_ONLY
  | I_POSITIONAL_OR_KEYWORD => POSITIONAL_OR_KEYWORD
  | I_VAR_POSITIONAL => VAR_POSITIONAL
  | I_KEYWORD_ONLY => KEYWORD_ONLY
  | I_VAR_KEYWORD => VAR_KEYWORD
  end.

(** [member_kind_map.get(attr.kind, MemberKind.VARIABLE)] *)
Definition member_kind_map (k : string) : MemberKind :=
  if k =? "method" then METHOD
  else if k =? "class method" then CLASSMETHOD
  else if k =? "static method" then STATICMETHOD
  else if k =? "property" then PROPERTY
  else if k =? "data" then DATA
  else VARIABLE.

Section WithProvider.
Context {obj : Type} (P : Provider obj).

(** *** resolve_dotted_path *)

(** [for attr in parts[i:]: obj = getattr(obj, attr)] *)
Fixpoint traverse (o : obj) (attrs : list string) : result obj :=
  match attrs with
  | [] => Ok o
  | a :: rest => o' <- getattr P o a ;; traverse o' rest
  end.

(** The body of the [try] for one candidate [i]. *)
Definition try_split (parts : list string) (i : nat)
  : result (obj * string * list string) :=
  let module_path := join "." (firstn i parts) in
  o <- import_module P module_path ;;
  o' <- traverse o (skipn i parts) ;;
  Ok (o', module_path, skipn i parts).

(** [for i in range(n, 0, -1)], then the final [raise]. *)
Fixpoint resolve_from (path : string) (parts : list string) (i : nat)
  : result (obj * string * list string) :=
  match i with
  | O => Raise (mk_exn ImportError ("Cannot resolve path: " ++ path)%string)
  | S i' =>
      match try_split parts i with
      | Ok r => Ok r
      | Raise e =>
          if catches [ImportError] e then resolve_from path parts i'
          else if catches [AttributeError] e then resolve_from path parts i'
          else Raise e
      end
  end.

Definition resolve_dotted_path (path : string)
  : result (obj * string * list string) :=
  let parts := split dot path in
  resolve_from path parts (List.length parts).

(** *** classify_object *)

Definition classify_object (o : obj) (name : string) : result MemberKind :=
  m <- ismodule P o ;;
  if m then (h <- has_path P o ;; Ok (if h then PACKAGE else MODULE)) else
  c <- isclass P o ;;
  if c then Ok CLASS else
  b <- isbuiltin P o ;;
  if b then Ok BUILTIN else
  f <- isfunction P o ;;
  if f then Ok FUNCTION else
  me <- ismethod P o ;;
  if me then Ok METHOD else
  cm <- is_classmethod P o ;;
  if cm then Ok CLASSMETHOD else
  sm <- is_staticmethod P o ;;
  if sm then Ok STATICMETHOD else
  pr <- is_property P o ;;
  if pr then Ok PROPERTY else
  (* [name and name.isupper() and isinstance(obj, (...))] *)
  if truthy name && isupper P name then
    (sc <- is_simple P o ;; Ok (if sc then CONSTANT else VARIABLE))
  else Ok VARIABLE.

(** *** extract_signature *)

Definition _format_annotation (ann : option obj) : result (option string) :=
  match ann with
  | None => Ok None
  | Some a => s <- formatannotation P a ;; Ok (Some s)
  end.

(** One iteration of the loop over [sig.parameters.items()]. *)
Definition parameter_info (p : InspectParameter obj) : result ParameterInfo.t :=
  let has_default :=
    match param_default p with Some _ => true | None => false end in
  ann <- _format_annotation (param_annotation p) ;;
  d <- match param_default p with
       | Some v => r <- repr P v ;; Ok (Some r)
       | None => Ok None
       end ;;
  Ok (ParameterInfo.mk (param_name p) (kind_map (param_kind p)) ann d
        has_default).

Definition extract_signature (o : obj) : result (option SignatureInfo.t) :=
  match signature P o with
  | Raise e => if catches [ValueError; TypeError] e then Ok None else Raise e
  | Ok sig =>
      params <- mapM parameter_info (sig_parameters sig) ;;
      ret <- _format_annotation (sig_return_annotation sig) ;;
      raw <- sig_str sig ;;
      Ok (Some (SignatureInfo.mk params ret (Some raw)))
  end.

(** *** extract_source *)

Definition extract_source (o : obj) : result SourceInfo.t :=
  try_except
    (src <- getsource P o ;;
     source_file <- getsourcefile P o ;;
     '(lines, start_line) <- getsourcelines P o ;;
     Ok (SourceInfo.mk (Some src) source_file (Some start_line)
           (Some (start_line + Z.of_nat (List.length lines) - 1)%Z) false))
    [OSError; TypeError]
    (fun _ =>
       file_path <- try_except (f <- getfile P o ;; Ok (Some f)) [TypeError]
                      (fun _ => Ok None) ;;
       Ok (SourceInfo.mk None file_path None None true)).

(** *** _safe_repr and _create_member_info *)

Definition _safe_repr (o : obj) (max_len : Z) : result string :=
  try_except
    (r <- repr P o ;;
     Ok (if (max_len <? Z.of_nat (len r))%Z
         then (slice_to (max_len - 3) r ++ "...")%string else r))
    [Exception]
    (fun _ => tn <- type_name P o ;; Ok ("<" ++ tn ++ ">")%string).

Definition _create_member_info (o : obj) (name : string) (kind : MemberKind)
    (parent_path : string) (is_imported : bool) : result MemberInfo.t :=
  doc <- getdoc P o ;;
  sig <- (if callable P o then extract_signature o else Ok None) ;;
  Ok (MemberInfo.mk name kind (parent_path ++ "." ++ name)%string doc sig None
        (startswith name "_")
        (startswith name "__" && endswith name "__")
        None is_imported None).

(** *** inspect_class *)

(** The body of the loop over [inspect.classify_class_attrs(cls)]. *)
Definition attr_step (cls : obj) (qualified_name : string)
    (include_private : bool) (attr : Attribute obj) (acc : class_buckets)
  : result class_buckets :=
  if negb include_private && startswith (attr_name attr) "_" then Ok acc
  else
    is_inherited <- ne P (attr_defining_class attr) cls ;;
    let member_kind := member_kind_map (attr_kind attr) in
    info <- _create_member_info (attr_object attr) (attr_name attr)
              member_kind qualified_name is_inherited ;;
    if attr_kind attr =? "method" then
      Ok (mk_cb (cb_methods acc ++ [info]) (cb_class_methods acc)
            (cb_static_methods acc) (cb_properties acc) (cb_class_variables acc))
    else if attr_kind attr =? "class method" then
      Ok (mk_cb (cb_methods acc) (cb_class_methods acc ++ [info])
            (cb_static_methods acc) (cb_properties acc) (cb_class_variables acc))
    else if attr_kind attr =? "static method" then
      Ok (mk_cb (cb_methods acc) (cb_class_methods acc)
            (cb_static_methods acc ++ [info]) (cb_properties acc)
            (cb_class_variables acc))
    else if attr_kind attr =? "property" then
      Ok (mk_cb (cb_methods acc) (cb_class_methods acc)
            (cb_static_methods acc) (cb_properties acc ++ [info])
            (cb_class_variables acc))
    else if attr_kind attr =? "data" then
      r <- _safe_repr (attr_object attr) default_max_len ;;
      Ok (mk_cb (cb_methods acc) (cb_class_methods acc)
            (cb_static_methods acc) (cb_properties acc)
            (cb_class_variables acc ++ [MemberInfo.set_value_repr info r]))
    else Ok acc.

Fixpoint scan_attrs (cls : obj) (qualified_name : string)
    (include_private : bool) (attrs : list (Attribute obj))
    (acc : class_buckets) : result class_buckets :=
  match attrs with
  | [] => Ok acc
  | attr :: rest =>
      acc' <- attr_step cls qualified_name include_private attr acc ;;
      scan_attrs cls qualified_name include_private rest acc'
  end.

Definition inspect_class (cls : obj) (qualified_name : string)
    (include_private : bool) : result ClassInfo.t :=
  attrs <- classify_class_attrs P cls ;;
  b <- scan_attrs cls qualified_name include_private attrs empty_cb ;;
  name <- dunder_name P cls ;;
  doc <- getdoc P cls ;;
  sig <- extract_signature cls ;;
  bases <- dunder_bases P cls ;;
  base_names <- mapM (dunder_name P)
                  (filter (fun b => negb (obj_eqb P b (the_object P))) bases) ;;
  mro <- dunder_mro P cls ;;
  mro_names <- mapM (dunder_name P) (slice_1_m1 mro) ;;
  is_abstract <- isabstract P cls ;;
  Ok (ClassInfo.mk
        (MemberInfo.mk name CLASS qualified_name doc sig None
           false false None false None)
        base_names
        mro_names
        (sorted_by MemberInfo.name (cb_methods b))
        (sorted_by MemberInfo.name (cb_class_methods b))
        (sorted_by MemberInfo.name (cb_static_methods b))
        (sorted_by MemberInfo.name (cb_properties b))
        (sorted_by MemberInfo.name (cb_class_variables b))
        is_abstract).

(** *** inspect_module *)

(** The submodule discovery: names yielded before an [Exception] ends the
    iteration are kept. *)
Definition discover_submodules (module : obj) : result (list string) :=
  h <- has_path P module ;;
  if h then
    match iter_modules P module with
    | (names, None) => Ok names
    | (names, Some e) => if catches [Exception] e then Ok names else Raise e
    end
  else Ok [].

(** [is_imported = obj_module is not None and obj_module != module_name] *)
Definition imported_from (module_name : string) (o : obj) : result bool :=
  obj_module <- dunder_module P o ;;
  Ok (match obj_module with
      | None => false
      | Some m => negb (m =? module_name)
      end).

(** The body of the loop over [inspect.getmembers(module)]. *)
Definition member_step (module_name : string)
    (include_private include_imported : bool) (binding : string * obj)
    (acc : module_buckets) : result module_buckets :=
  let (name, o) := binding in
  if negb include_private && startswith name "_" then Ok acc
  else
    m <- ismodule P o ;;
    if m then Ok acc
    else
    is_imported <- imported_from module_name o ;;
    if negb include_imported && is_imported then Ok acc
    else
      kind <- classify_object o name ;;
      match kind with
      | CLASS =>
          ci <- inspect_class o (module_name ++ "." ++ name)%string
                  include_private ;;
          Ok (mk_mb (mb_classes acc ++ [ci]) (mb_functions acc)
                (mb_constants acc) (mb_variables acc))
      | FUNCTION | BUILTIN =>
          info <- _create_member_info o name kind module_name is_imported ;;
          Ok (mk_mb (mb_classes acc) (mb_functions acc ++ [info])
                (mb_constants acc) (mb_variables acc))
      | CONSTANT =>
          info <- _create_member_info o name kind module_name is_imported ;;
          r <- _safe_repr o default_max_len ;;
          Ok (mk_mb (mb_classes acc) (mb_functions acc)
                (mb_constants acc ++ [MemberInfo.set_value_repr info r])
                (mb_variables acc))
      | VARIABLE =>
          info <- _create_member_info o name kind module_name is_imported ;;
          r <- _safe_repr o default_max_len ;;
          Ok (mk_mb (mb_classes acc) (mb_functions acc) (mb_constants acc)
                (mb_variables acc ++ [MemberInfo.set_value_repr info r]))
      | _ => Ok acc
      end.

Fixpoint scan_members (module_name : string)
    (include_private include_imported : bool)
    (members : list (string * obj)) (acc : module_buckets)
  : result module_buckets :=
  match members with
  | [] => Ok acc
  | binding :: rest =>
      acc' <- member_step module_name include_private include_imported
                binding acc ;;
      scan_members module_name include_private include_imported rest acc'
  end.

Definition inspect_module (module : obj)
    (include_private include_imported : bool) : result ModuleInfo.t :=
  module_name <- dunder_name P module ;;
  submodules <- discover_submodules module ;;
  members <- getmembers P module ;;
  b <- scan_members module_name include_private include_imported
         members empty_mb ;;
  doc <- getdoc P module ;;
  (* [bool(submodules) or hasattr(module, "__path__")] *)
  is_package <- (if nonempty submodules then Ok true
                 else has_path P module) ;;
  file_path <- dunder_file P module ;;
  Ok (ModuleInfo.mk
        (MemberInfo.mk (last_part (split dot module_name))
           (if nonempty submodules then PACKAGE else MODULE)
           module_name doc None None false false None false None)
        is_package
        file_path
        (sorted submodules)
        (sorted_by ClassInfo.name (mb_classes b))
        (sorted_by MemberInfo.name (mb_functions b))
        (sorted_by MemberInfo.name (mb_constants b))
        (sorted_by MemberInfo.name (mb_variables b))).

(** *** inspect_path *)

(** The body of the [try] of [inspect_path]. *)
Definition inspect_path_body (path : string)
    (include_private include_imported : bool) : result InspectionResult.t :=
  '(o, _, _) <- resolve_dotted_path path ;;
  kind <- classify_object o
            (if contains dot path then last_part (split dot path)
             else path) ;;
  info <- match kind with
          | MODULE | PACKAGE =>
              mi <- inspect_module o include_private include_imported ;;
              Ok (InfoModule mi)
          | CLASS =>
              ci <- inspect_class o path include_private ;;
              Ok (InfoClass ci)
          | _ =>
              let parent_path :=
                if contains dot path
                then join "." (removelast (split dot path)) else "" in
              info <- _create_member_info o (last_part (split dot path))
                        kind parent_path false ;;
              src <- extract_source o ;;
              Ok (InfoMember (MemberInfo.set_source info src))
          end ;;
  Ok (InspectionResult.mk path path kind info None).

(** The envelope built by the handler, [msg] being [str(e)]. *)
Definition degraded (path : string) (msg : string) : InspectionResult.t :=
  InspectionResult.mk path path VARIABLE
    (InfoMember (MemberInfo_minimal path VARIABLE path))
    (Some msg).

(** The handler evaluates [str(e)], which runs [e.__str__]: an exception
    raised there leaves [inspect_path]. *)
Definition inspect_path (path : string)
    (include_private include_imported : bool) : result InspectionResult.t :=
  try_except (inspect_path_body path include_private include_imported)
    [Exception] (fun e => msg <- str_exc e ;; Ok (degraded path msg)).

End WithProvider.
End Inspector.

(** ** A concrete provider: a small heap of objects

    Objects are numbered; the heap lists, for each object, what the
    interpreter would answer about it.  It is used to run the inspector on
    concrete namespaces. *)

Module Heap.

(** What an object is: one of the types the classifier tests for; [TSimple]
    a value of the scalar set; [TCallable] a callable of none of these
    types; [TCallableInt] an instance of a subclass of [int] that defines
    [__call__]; [TLazy] a lazy proxy, on which reading [__class__] or an
    attribute runs code that raises; [TOther] anything else. *)
Inductive pytype : Type :=
| TModule | TPackage | TClass | TBuiltin | TFunction | TMethod
| TClassmethod | TStaticmethod | TProperty | TSimple | TCallable
| TCallableInt | TLazy | TOther.

Record pyobject : Type := mk_obj {
  o_type : pytype;
  o_name : string;                       (* __name__ *)
  o_module : option string;              (* __module__ *)
  o_dict : list (string * nat);          (* attributes, sorted by name *)
  o_bases : list nat;
  o_mro : list nat;
  o_doc : result (option string);
  o_sig : result (InspectSignature nat);
  o_repr : result string;
  o_submodules : list string * option exn;
  o_class_attrs : list (Attribute nat)
}.

Record world : Type := mk_world {
  heap : list pyobject;                       (* object [i] is [heap[i]] *)
  sys_modules : list (string * result nat)    (* what an import yields *)
}.

Definition not_callable : result (InspectSignature nat) :=
  Raise (mk_exn TypeError "object is not a callable object").

(** An object with no attributes, no documentation and a given [repr]. *)
Definition plain (t : pytype) (n : string) (m : option string) (r : string)
  : pyobject :=
  mk_obj t n m [] [] [] (Ok None) not_callable (Ok r) ([], None) [].

Definition none_object : pyobject := plain TSimple "" None "None".

Definition deref (w : world) (i : nat) : pyobject :=
  nth i (heap w) none_object.

Fixpoint lookup {V : Type} (k : string) (l : list (string * V)) : option V :=
  match l with
  | [] => None
  | (k', v) :: rest => if k' =? k then Some v else lookup k rest
  end.

Definition is_type (t : pytype) (o : pyobject) : bool :=
  match t, o_type o with
  | TModule, TModule | TPackage, TPackage | TClass, TClass
  | TBuiltin, TBuiltin | TFunction, TFunction | TMethod, TMethod
  | TClassmethod, TClassmethod | TStaticmethod, TStaticmethod
  | TProperty, TProperty | TSimple, TSimple | TCallable, TCallable
  | TCallableInt, TCallableInt | TLazy, TLazy | TOther, TOther => true
  | _, _ => false
  end.

Definition type_name_of (o : pyobject) : string :=
  match o_type o with
  | TModule | TPackage => "module"
  | TClass => "type"
  | TBuiltin => "builtin_function_or_method"
  | TFunction => "function"
  | TMethod => "method"
  | TClassmethod => "classmethod"
  | TStaticmethod => "staticmethod"
  | TProperty => "property"
  | TSimple => "int"
  | TCallable => "partial"
  | TCallableInt => "Flag"
  | TLazy => "LazyObject"
  | TOther => "object"
  end.

Definition no_source {A : Type} : result A :=
  Raise (mk_exn OSError "could not get source code").

(** What reading the class of a lazy proxy raises. *)
Definition unbound : exn := mk_exn RuntimeError "unbound".

(** [isinstance(o, ts)]: it reads [__class__]. *)
Definition test (ts : list pytype) (o : pyobject) : result bool :=
  if is_type TLazy o then Raise unbound
  else Ok (existsb (fun t => is_type t o) ts).

Definition provider (w : world) : Provider nat :=
  let at_ (i : nat) := deref w i in
  {| obj_eqb := Nat.eqb;
     the_object := 0;
     ne := fun a b => Ok (negb (Nat.eqb a b));
     import_module := fun s =>
       match lookup s (sys_modules w) with
       | Some r => r
       | None =>
           Raise (mk_exn ModuleNotFoundError ("No module named '" ++ s ++ "'"))
       end;
     getattr := fun i a =>
       match lookup a (o_dict (at_ i)) with
       | Some v => Ok v
       | None =>
           Raise (mk_exn AttributeError ("object has no attribute '" ++ a ++ "'"))
       end;
     ismodule := fun i => test [TModule; TPackage] (at_ i);
     isclass := fun i => test [TClass] (at_ i);
     isbuiltin := fun i => test [TBuiltin] (at_ i);
     isfunction := fun i => test [TFunction] (at_ i);
     ismethod := fun i => test [TMethod] (at_ i);
     is_classmethod := fun i => test [TClassmethod] (at_ i);
     is_staticmethod := fun i => test [TStaticmethod] (at_ i);
     is_property := fun i => test [TProperty] (at_ i);
     is_simple := fun i => test [TSimple; TCallableInt] (at_ i);
     has_path := fun i => test [TPackage] (at_ i);
     callable := fun i =>
       is_type TClass (at_ i) || is_type TBuiltin (at_ i)
       || is_type TFunction (at_ i) || is_type TMethod (at_ i)
       || is_type TCallable (at_ i) || is_type TCallableInt (at_ i);
     dunder_name := fun i => Ok (o_name (at_ i));
     type_name := fun i => Ok (type_name_of (at_ i));
     dunder_module := fun i =>
       if is_type TLazy (at_ i) then Raise unbound else Ok (o_module (at_ i));
     dunder_file := fun _ => Ok None;
     dunder_bases := fun i => Ok (o_bases (at_ i));
     dunder_mro := fun i => Ok (o_mro (at_ i));
     isabstract := fun _ => Ok false;
     iter_modules := fun i => o_submodules (at_ i);
     getmembers := fun i => Ok (o_dict (at_ i));
     classify_class_attrs := fun i => Ok (o_class_attrs (at_ i));
     getdoc := fun i => o_doc (at_ i);
     signature := fun i => o_sig (at_ i);
     formatannotation := fun i => Ok (o_name (at_ i));
     repr := fun i => o_repr (at_ i);
     getsource := fun _ => no_source;
     getsourcefile := fun _ => no_source;
     getsourcelines := fun _ => no_source;
     getfile := fun _ => Raise (mk_exn TypeError "is a built-in object");
     isupper := PyStr.ascii_isupper |}.

(** The root class [object], always object 0 here. *)
Definition the_root : pyobject :=
  mk_obj TClass "object" None [] [] [0%nat] (Ok None)
    (Ok (mk_Signature nat [] None (Ok "()"))) (Ok "<class 'object'>") ([], None) [].

(** *** Example namespaces *)

(** A function [(a, *p)] with a docstring. *)
Definition a_function (n : string) (m : string) : pyobject :=
  mk_obj TFunction n (Some m) [] [] [] (Ok (Some "Join two paths."))
    (Ok (mk_Signature nat
           [mk_Parameter nat "a" I_POSITIONAL_OR_KEYWORD None None;
            mk_Parameter nat "p" I_VAR_POSITIONAL None None]
           None (Ok "(a, *p)")))
    (Ok "<function>") ([], None) [].

Definition a_module (t : pytype) (n : string) (d : list (string * nat))
  : pyobject :=
  mk_obj t n None d [] [] (Ok None) not_callable (Ok "<module>") ([], None) [].

(** [os] (1), whose attribute [path] is the module [posixpath] (2), also
    registered under the name [os.path]; [posixpath.join] (3). *)
Definition os_world : world :=
  mk_world
    [the_root;
     a_module TModule "os" [("path", 2%nat)];
     a_module TModule "posixpath" [("join", 3%nat)];
     a_function "join" "posixpath"]
    [("os", Ok 1%nat); ("os.path", Ok 2%nat); ("posixpath", Ok 2%nat)].

(** A package [pkg] (1) that binds [mod] to the integer 1 (2), while
    importing its submodule [pkg.mod] runs code that raises. *)
Definition broken_submodule_world : world :=
  mk_world
    [the_root;
     a_module TPackage "pkg" [("mod", 2%nat)];
     plain TSimple "" None "1"]
    [("pkg", Ok 1%nat);
     ("pkg.mod", Raise (mk_exn RuntimeError "boom"))].

(** A module [m] (1) binding [MAX] to a function (2), [DEBUG] to a bound
    method (3) and [LIMIT] to the integer 1 (4); (5) is a function declared
    [(a, b=1, *args, c, **kwargs)]. *)
Definition upper_names_world : world :=
  mk_world
    [the_root;
     a_module TModule "m" [("DEBUG", 3%nat); ("LIMIT", 4%nat); ("MAX", 2%nat)];
     a_function "MAX" "m";
     mk_obj TMethod "debug" (Some "logging") [] [] [] (Ok None)
       (Ok (mk_Signature nat [] None (Ok "()"))) (Ok "<bound method>")
       ([], None) [];
     plain TSimple "" None "1";
     mk_obj TFunction "f" (Some "m") [] [] [] (Ok None)
       (Ok (mk_Signature nat
              [mk_Parameter nat "a" I_POSITIONAL_OR_KEYWORD None None;
               mk_Parameter nat "b" I_POSITIONAL_OR_KEYWORD None (Some 4%nat);
               mk_Parameter nat "args" I_VAR_POSITIONAL None None;
               mk_Parameter nat "c" I_KEYWORD_ONLY None None;
               mk_Parameter nat "kwargs" I_VAR_KEYWORD None None]
              None (Ok "(a, b=1, *args, c, **kwargs)")))
       (Ok "<function f>") ([], None) []]
    [("m", Ok 1%nat)].

(** A module [m] (1) binding [LIMIT] to a value whose [repr] raises (2),
    [f] to a native function without signature metadata (3) and [g] to a
    function (4). *)
Definition contained_world : world :=
  mk_world
    [the_root;
     a_module TModule "m" [("LIMIT", 2%nat); ("f", 3%nat); ("g", 4%nat)];
     mk_obj TSimple "" None [] [] [] (Ok None) not_callable
       (Raise (mk_exn RuntimeError "repr failed")) ([], None) [];
     mk_obj TBuiltin "f" (Some "m") [] [] [] (Ok None)
       (Raise (mk_exn ValueError "no signature found for builtin"))
       (Ok "<built-in function f>") ([], None) [];
     a_function "g" "m"]
    [("m", Ok 1%nat)].



(** A package [pkg] (1) with a storage path but no submodule to list,
    binding [VERSION] to a string (2) and [_cache] to a value (3). *)
Definition empty_package_world : world :=
  mk_world
    [the_root;
     a_module TPackage "pkg" [("VERSION", 2%nat); ("_cache", 3%nat)];
     plain TSimple "" None "'1.0'";
     plain TOther "" (Some "builtins") "{}"]
    [("pkg", Ok 1%nat)].

Definition a_class (n m : string) (bases mro : list nat) : pyobject :=
  mk_obj TClass n (Some m) [] bases mro (Ok None)
    (Ok (mk_Signature nat [] None (Ok "()"))) (Ok "<class>") ([], None) [].

(** [socket.socket] (1) derives from [_socket.socket] (2): two classes with
    the same [__name__]; (3) is the module [socket]. *)
Definition socket_world : world :=
  mk_world
    [the_root;
     a_class "socket" "socket" [2%nat] [1%nat; 2%nat; 0%nat];
     a_class "socket" "_socket" [0%nat] [2%nat; 0%nat];
     a_module TModule "socket" [("socket", 1%nat)]]
    [("socket", Ok 3%nat)].

(** A script whose import runs [sys.exit()]. *)
Definition exiting_script_world : world :=
  mk_world [the_root] [("script", Raise (mk_exn SystemExit "0"))].

(** A namespace in which nothing is called [zzz]. *)
Definition empty_world : world := mk_world [the_root] [].

(** A module [flags] (1) binding [ENABLED] to a callable instance of a
    subclass of [int] (2) and [RESET] to a bound method (3). *)
Definition callable_constant_world : world :=
  mk_world
    [the_root;
     a_module TModule "flags" [("ENABLED", 2%nat); ("RESET", 3%nat)];
     mk_obj TCallableInt "" None [] [] [] (Ok None)
       (Ok (mk_Signature nat [] None (Ok "()"))) (Ok "1") ([], None) [];
     mk_obj TMethod "reset" (Some "flags") [] [] [] (Ok None)
       (Ok (mk_Signature nat [] None (Ok "()"))) (Ok "<bound method>")
       ([], None) []]
    [("flags", Ok 1%nat)].

(** A module [m] (1) binding [LIMIT] to the integer 1 (2), [conf] to a lazy
    proxy that is not set up (3) and [g] to a function (4). *)
Definition lazy_world : world :=
  mk_world
    [the_root;
     a_module TModule "m" [("LIMIT", 2%nat); ("conf", 3%nat); ("g", 4%nat)];
     plain TSimple "" None "1";
     plain TLazy "" None "<LazyObject>";
     a_function "g" "m"]
    [("m", Ok 1%nat)].

(** A class [Odd] (1) deriving from [Base] (2), whose metaclass overrides
    [mro()] and puts the root in the middle: [Odd, object, Base]. *)
Definition custom_mro_world : world :=
  mk_world
    [the_root;
     a_class "Odd" "m" [2%nat] [1%nat; 0%nat; 2%nat];
     a_class "Base" "m" [0%nat] [2%nat; 0%nat]]
    [].

(** A module whose import raises an exception whose [__str__] raises. *)
Definition unprintable_world : world :=
  mk_world [the_root]
    [("mod",
      Raise (Exn RuntimeError ""
               (Some (mk_exn TypeError
                        "__str__ returned non-string (type int)"))))].

End Heap.

(** ** Vocabulary of the statements about path resolution *)

Module ResolveSpec.
Import Inspector.

(** The failures that make the resolver give up a candidate: those its two
    handlers intercept. *)
Definition soft (e : exn) : bool :=
  catches [ImportError] e || catches [AttributeError] e.

(** [ImportError(f"Cannot resolve path: {path}")] *)
Definition not_found (path : string) : exn :=
  mk_exn ImportError ("Cannot resolve path: " ++ path)%string.

(** Candidate [k] is tried and given up. *)
Definition abandoned {obj : Type} (P : Provider obj) (parts : list string)
    (k : nat) : Prop :=
  exists e, try_split P parts k = Raise e /\ soft e = true.

End ResolveSpec.

(** ** The classifier, as the specification words it *)

Module ClassifySpec.
Import PyStr.

(** A conjunction of two tests, the second being made only when the first
    holds. *)
Definition and_then (a b : result bool) : result bool :=
  x <- a ;; if x then b else Ok false.

(** The first rule whose condition holds decides; the conditions are
    evaluated in order, up to that rule. *)
Fixpoint first_match (rules : list (result bool * MemberKind))
    (otherwise : MemberKind) : result MemberKind :=
  match rules with
  | [] => Ok otherwise
  | (c, k) :: rest =>
      b <- c ;; if b then Ok k else first_match rest otherwise
  end.

(** The precedence list of the specification, in its order. *)
Definition rules {obj : Type} (P : Provider obj) (o : obj) (name : string)
  : list (result bool * MemberKind) :=
  [ (and_then (ismodule P o) (has_path P o), PACKAGE); (* namespace with children *)
    (ismodule P o, MODULE);                    (* plain namespace *)
    (isclass P o, CLASS);                      (* type *)
    (isbuiltin P o, BUILTIN);                  (* native callable *)
    (isfunction P o, FUNCTION);                (* plain callable *)
    (ismethod P o, METHOD);                    (* bound callable *)
    (is_classmethod P o, CLASSMETHOD);
    (is_staticmethod P o, STATICMETHOD);
    (is_property P o, PROPERTY);
    (and_then (Ok (truthy name && isupper P name)) (is_simple P o),
     CONSTANT) ].

Definition classify_spec {obj : Type} (P : Provider obj) (o : obj)
    (name : string) : result MemberKind :=
  first_match (rules P o name) VARIABLE.

(** The eight type tests, in the order of the precedence list. *)
Definition type_tests {obj : Type} (P : Provider obj) (o : obj)
  : list (result bool) :=
  [ismodule P o; isclass P o; isbuiltin P o; isfunction P o; ismethod P o;
   is_classmethod P o; is_staticmethod P o; is_property P o].

(** Each of the tests answers, and the answer is no. *)
Fixpoint all_no (tests : list (result bool)) : Prop :=
  match tests with
  | [] => True
  | t :: rest => t = Ok false /\ all_no rest
  end.

(** The name passes the test of the constant heuristic. *)
Definition upper_case {obj : Type} (P : Provider obj) (name : string) : bool :=
  truthy name && isupper P name.

(** The condition under which [k] is the tag: the test of its rule answers
    yes and the tests of the rules before it answer no. *)
Definition decided_by {obj : Type} (P : Provider obj) (o : obj)
    (name : string) (k : MemberKind) : Prop :=
  let before (n : nat) := all_no (firstn n (type_tests P o)) in
  match k with
  | PACKAGE => ismodule P o = Ok true /\ has_path P o = Ok true
  | MODULE => ismodule P o = Ok true /\ has_path P o = Ok false
  | CLASS => before 1%nat /\ isclass P o = Ok true
  | BUILTIN => before 2%nat /\ isbuiltin P o = Ok true
  | FUNCTION => before 3%nat /\ isfunction P o = Ok true
  | METHOD => before 4%nat /\ ismethod P o = Ok true
  | CLASSMETHOD => before 5%nat /\ is_classmethod P o = Ok true
  | STATICMETHOD => before 6%nat /\ is_staticmethod P o = Ok true
  | PROPERTY => before 7%nat /\ is_property P o = Ok true
  | CONSTANT =>
      before 8%nat /\ upper_case P name = true /\ is_simple P o = Ok true
  | VARIABLE =>
      before 8%nat
      /\ (upper_case P name = false
          \/ (upper_case P name = true /\ is_simple P o = Ok false))
  | DATA => False
  end.

(** The first test that does not answer raises [e]: one of the eight type
    tests, the tests before it answering no; the storage-path test made on
    a namespace; or the scalar test made for an upper-case name when the
    eight type tests answer no. *)
Definition first_failure {obj : Type} (P : Provider obj) (o : obj)
    (name : string) (e : exn) : Prop :=
  (exists n, all_no (firstn n (type_tests P o))
             /\ nth_error (type_tests P o) n = Some (Raise e))
  \/ (ismodule P o = Ok true /\ has_path P o = Raise e)
  \/ (all_no (type_tests P o) /\ upper_case P name = true
      /\ is_simple P o = Raise e).

End ClassifySpec.

(** ** The signature fixture *)

Module SignatureSpec.






End SignatureSpec.

(** ** Vocabulary of the statements about the two scans *)

Module ScanSpec.
Import PyStr Inspector SignatureSpec.

Section WithProvider.
Context {obj : Type} (P : Provider obj).

Definition not_root (b : obj) : bool := negb (obj_eqb P b (the_object P)).

(** The three filters at the head of the loop body of [inspect_module], in
    their order: whether the binding passes them. *)
Definition kept (module_name : string) (include_private include_imported : bool)
    (binding : string * obj) : result bool :=
  if negb include_private && startswith (fst binding) "_" then Ok false
  else
    m <- ismodule P (snd binding) ;;
    if m then Ok false
    else
      imp <- imported_from P module_name (snd binding) ;;
      Ok (negb (negb include_imported && imp)).

(** What the loop body does with a binding that passes the filters, [imp]
    being its imported flag. *)
Definition member_body (mn : string) (ip : bool) (name : string) (o : obj)
    (imp : bool) (acc : module_buckets) : result module_buckets :=
  kind <- classify_object P o name ;;
  match kind with
  | CLASS =>
      ci <- inspect_class P o (mn ++ "." ++ name)%string ip ;;
      Ok (mk_mb (mb_classes acc ++ [ci]) (mb_functions acc)
            (mb_constants acc) (mb_variables acc))
  | FUNCTION | BUILTIN =>
      info <- _create_member_info P o name kind mn imp ;;
      Ok (mk_mb (mb_classes acc) (mb_functions acc ++ [info])
            (mb_constants acc) (mb_variables acc))
  | CONSTANT =>
      info <- _create_member_info P o name kind mn imp ;;
      r <- _safe_repr P o default_max_len ;;
      Ok (mk_mb (mb_classes acc) (mb_functions acc)
            (mb_constants acc ++ [MemberInfo.set_value_repr info r])
            (mb_variables acc))
  | VARIABLE =>
      info <- _create_member_info P o name kind mn imp ;;
      r <- _safe_repr P o default_max_len ;;
      Ok (mk_mb (mb_classes acc) (mb_functions acc) (mb_constants acc)
            (mb_variables acc ++ [MemberInfo.set_value_repr info r]))
  | _ => Ok acc
  end.









(** Every bucket of a [ClassInfo] is ascending by name. *)
Definition class_buckets_ascending (ci : ClassInfo.t) : Prop :=
  ascending MemberInfo.name (ClassInfo.methods ci)
  /\ ascending MemberInfo.name (ClassInfo.class_methods ci)
  /\ ascending MemberInfo.name (ClassInfo.static_methods ci)
  /\ ascending MemberInfo.name (ClassInfo.properties ci)
  /\ ascending MemberInfo.name (ClassInfo.class_variables ci).

(** The class record comes out of [inspect_class]. *)
Definition from_inspect_class (ip : bool) (ci : ClassInfo.t) : Prop :=
  exists o qn, inspect_class P o qn ip = Ok ci.



End WithProvider.
End ScanSpec.

(** ** Vocabulary of the statements about class ancestry *)

Module AncestrySpec.

(** The resolution order the default linearisation produces: free of
    duplicates, led by the class, closed by the root, and holding the
    direct bases. *)
Definition mro_well_formed {obj : Type} (P : Provider obj) (cls : obj)
    (bases mro : list obj) : Prop :=
  NoDup mro
  /\ hd_error mro = Some cls
  /\ List.last mro cls = the_object P
  /\ incl bases (tl mro).

(** [a is b] decides identity. *)
Definition identity_test {obj : Type} (P : Provider obj) : Prop :=
  forall a b, obj_eqb P a b = true <-> a = b.

(** The names of the entities [l], in order. *)
Definition names_of {obj : Type} (P : Provider obj) (l : list obj)
    (names : list string) : Prop :=
  Forall2 (fun c n => dunder_name P c = Ok n) l names.

End AncestrySpec.

(** ** Vocabulary of the statements about the result assembler *)

Module PathSpec.
Import PyStr.

(** The name the resolved entity is classified under. *)
Definition terminal_name (path : string) : string :=
  if contains dot path then last_part (split dot path) else path.

End PathSpec.

(** * Properties *)

(** ** The error monad *)

Lemma bind_Ok_inv {A B : Type} (c : result A) (k : A -> result B) (b : B) :
  bind c k = Ok b -> exists a, c = Ok a /\ k a = Ok b.
Proof. destruct c as [a|e]; simpl; [eauto | discriminate]. Qed.

Lemma bind_Raise_inv {A B : Type} (c : result A) (k : A -> result B) (e : exn) :
  bind c k = Raise e ->
  c = Raise e \/ exists a, c = Ok a /\ k a = Raise e.
Proof. destruct c as [a|e']; simpl; [eauto | intros [= ->]; auto]. Qed.

(** Peel the first [bind] of a hypothesis that says a computation returned. *)
Ltac inv_bind H :=
  let a := fresh "a" in
  let E := fresh "E" in
  apply bind_Ok_inv in H; destruct H as (a & E & H).

Lemma mapM_Ok_map {A B : Type} (f : A -> result B) (g : A -> B) (l : list A) :
  (forall x, In x l -> f x = Ok (g x)) -> mapM f l = Ok (map g l).
Proof.
  induction l as [|x l IH]; intros H; [reflexivity|].
  simpl. rewrite (H x (or_introl eq_refl)). simpl.
  rewrite IH by (intros y Hy; apply H; now right). reflexivity.
Qed.

Lemma mapM_Ok_Forall2 {A B : Type} (f : A -> result B) (l : list A) (r : list B) :
  mapM f l = Ok r -> Forall2 (fun x y => f x = Ok y) l r.
Proof.
  revert r. induction l as [|x l IH]; intros r H; simpl in H.
  - injection H as <-. constructor.
  - inv_bind H. inv_bind H. injection H as <-. constructor; auto.
Qed.


(** ** Lists related element by element *)

Lemma Forall2_In_l {A B : Type} (R : A -> B -> Prop) (l : list A)
    (l' : list B) (y : B) :
  Forall2 R l l' -> In y l' -> exists x, In x l /\ R x y.
Proof.
  induction 1 as [|a b l l' Hab _ IH]; intros Hy; [destruct Hy|].
  destruct Hy as [<-|Hy].
  - exists a. split; [now left | exact Hab].
  - destruct (IH Hy) as (x & Hx & Hr). exists x. split; [now right | exact Hr].
Qed.

Lemma Forall2_In_r {A B : Type} (R : A -> B -> Prop) (l : list A)
    (l' : list B) (x : A) :
  Forall2 R l l' -> In x l -> exists y, In y l' /\ R x y.
Proof.
  induction 1 as [|a b l l' Hab _ IH]; intros Hx; [destruct Hx|].
  destruct Hx as [<-|Hx].
  - exists b. split; [now left | exact Hab].
  - destruct (IH Hx) as (y & Hy & Hr). exists y. split; [now right | exact Hr].
Qed.

(** ** Strings *)

Module PyStrFacts.
Import PyStr.

Lemma split_not_nil (sep : ascii) (s : string) : split sep s <> [].
Proof.
  destruct s as [|c s]; simpl; [discriminate|].
  destruct (Ascii.eqb c sep); [discriminate|].
  destruct (split sep s); discriminate.
Qed.

Lemma split_length_pos (sep : ascii) (s : string) :
  (1 <= List.length (split sep s))%nat.
Proof.
  pose proof (split_not_nil sep s) as H.
  destruct (split sep s); [congruence | simpl; lia].
Qed.

(** [sep.join(s.split(sep)) == s] *)
Lemma join_split (sep : ascii) (s : string) :
  join (String sep EmptyString) (split sep s) = s.
Proof.
  unfold join. induction s as [|c s IH]; simpl; [reflexivity|].
  destruct (Ascii.eqb_spec c sep) as [->|Hne].
  - pose proof (split_not_nil sep s) as Hnil.
    destruct (split sep s) as [|w ws] eqn:E; [congruence|].
    simpl. simpl in IH. now rewrite IH.
  - pose proof (split_not_nil sep s) as Hnil.
    destruct (split sep s) as [|w ws] eqn:E; [congruence|].
    simpl in *. destruct ws; simpl in *; now rewrite <- IH.
Qed.

Lemma split_no_sep (sep : ascii) (s : string) :
  contains sep s = false -> split sep s = [s].
Proof.
  induction s as [|c s IH]; simpl; [reflexivity|].
  rewrite Ascii.eqb_sym.
  destruct (Ascii.eqb sep c); simpl; [discriminate|].
  intros H. now rewrite (IH H).
Qed.

Lemma split_with_sep (sep : ascii) (s : string) :
  contains sep s = true -> (2 <= List.length (split sep s))%nat.
Proof.
  induction s as [|c s IH]; simpl; [discriminate|].
  rewrite Ascii.eqb_sym.
  destruct (Ascii.eqb sep c); simpl.
  - intros _. pose proof (split_length_pos sep s). lia.
  - intros H. specialize (IH H).
    destruct (split sep s); simpl in *; lia.
Qed.

Lemma append_assoc (a b c : string) :
  ((a ++ b) ++ c)%string = (a ++ (b ++ c))%string.
Proof. induction a as [|x a IH]; simpl; [reflexivity | now rewrite IH]. Qed.

(** [sep.join(l[:-1]) + sep + l[-1] == sep.join(l)] when [l] has two parts
    or more. *)
Lemma join_init_last (sep : string) (l : list string) :
  (2 <= List.length l)%nat ->
  (join sep (removelast l) ++ sep ++ last_part l)%string = join sep l.
Proof.
  unfold join, last_part.
  induction l as [|x l IH]; [simpl; lia|].
  destruct l as [|y l]; [simpl; lia|]. intros _.
  destruct l as [|z l]; [reflexivity|].
  assert (H2 : (2 <= List.length (y :: z :: l))%nat) by (simpl; lia).
  specialize (IH H2).
  change (removelast (x :: y :: z :: l)) with (x :: removelast (y :: z :: l)).
  change (List.last (x :: y :: z :: l) EmptyString)
    with (List.last (y :: z :: l) EmptyString).
  change (String.concat sep (x :: y :: z :: l))
    with (x ++ sep ++ String.concat sep (y :: z :: l))%string.
  rewrite <- IH.
  destruct (removelast (y :: z :: l)) as [|u us] eqn:E.
  - destruct l; discriminate.
  - change (String.concat sep (x :: u :: us))
      with (x ++ sep ++ String.concat sep (u :: us))%string.
    now rewrite !append_assoc.
Qed.

Example split_examples :
  split dot "urllib.parse.urlparse" = ["urllib"; "parse"; "urlparse"]
  /\ split dot "os" = ["os"]
  /\ split dot "a..b" = ["a"; ""; "b"]
  /\ split dot "" = [""].
Proof. repeat split. Qed.

Example ascii_isupper_examples :
  ascii_isupper "MAX_SIZE" = true /\ ascii_isupper "HTTP2" = true
  /\ ascii_isupper "Max" = false /\ ascii_isupper "_" = false
  /\ ascii_isupper "" = false.
Proof. repeat split. Qed.

(** *** Length and slices, in characters *)

Lemma len_app (a b : string) : len (a ++ b) = (len a + len b)%nat.
Proof.
  induction a as [|c a IH]; [reflexivity|].
  cbn [append len]. destruct (is_continuation c); rewrite IH; reflexivity.
Qed.

Lemma len_take (n : nat) (s : string) : len (take n s) = Nat.min n (len s).
Proof.
  revert n. induction s as [|c s IH]; intros n; cbn [take len].
  - now rewrite Nat.min_0_r.
  - destruct (is_continuation c) eqn:E.
    + cbn [len]. rewrite E. apply IH.
    + destruct n as [|n]; [reflexivity|].
      cbn [len]. rewrite E, IH. reflexivity.
Qed.

Lemma take_all (n : nat) (s : string) : (len s <= n)%nat -> take n s = s.
Proof.
  revert n. induction s as [|c s IH]; intros n H; [reflexivity|].
  cbn [take len] in *. destruct (is_continuation c).
  - now rewrite IH.
  - destruct n as [|n]; [lia|]. rewrite IH by lia. reflexivity.
Qed.

(** A slice is a prefix. *)
Lemma take_prefix (n : nat) (s : string) : String.prefix (take n s) s = true.
Proof.
  revert n. induction s as [|c s IH]; intros n; [reflexivity|].
  cbn [take]. destruct (is_continuation c).
  - cbn. destruct (Ascii.ascii_dec c c); [apply IH | congruence].
  - destruct n as [|n]; [reflexivity|].
    cbn. destruct (Ascii.ascii_dec c c); [apply IH | congruence].
Qed.

Example len_examples :
  len "abc" = 3%nat
  /\ len (String "195" (String "169" "t" ++ String "195" (String "169" "")))
     = 3%nat
  /\ take 2 "abc" = "ab"
  /\ slice_to 5 "abc" = "abc"
  /\ slice_to (-1) "abc" = "ab"
  /\ slice_to (-5) "abc" = "".
Proof. repeat split. Qed.

Example dunder_examples :
  (startswith "__init__" "__" && endswith "__init__" "__" = true)
  /\ (startswith "_x" "__" && endswith "_x" "__" = false)
  /\ startswith "_x" "_" = true.
Proof. repeat split. Qed.

End PyStrFacts.

(** ** Sorting *)

Lemma ascii_compare_trans (a b c : ascii) (r : comparison) :
  Ascii.compare a b = r -> Ascii.compare b c = r -> Ascii.compare a c = r.
Proof.
  unfold Ascii.compare. intros H1 H2. destruct r.
  - apply N.compare_eq_iff in H1, H2. apply N.compare_eq_iff. congruence.
  - apply N.compare_lt_iff in H1, H2. apply N.compare_lt_iff.
    eapply N.lt_trans; eassumption.
  - apply N.compare_gt_iff in H1, H2. apply N.compare_gt_iff.
    eapply N.lt_trans; eassumption.
Qed.

(** The order on names is transitive. *)
Lemma string_leb_trans (s1 s2 s3 : string) :
  String.leb s1 s2 = true -> String.leb s2 s3 = true ->
  String.leb s1 s3 = true.
Proof.
  unfold String.leb. revert s2 s3.
  induction s1 as [|a s1 IH]; intros [|b s2] [|c s3]; simpl; trivial;
    try discriminate.
  destruct (Ascii.compare a b) eqn:Hab; try discriminate;
    destruct (Ascii.compare b c) eqn:Hbc; try discriminate; intros H1 H2.
  - rewrite (ascii_compare_trans a b c Eq Hab Hbc). now apply (IH s2).
  - apply Ascii.compare_eq_iff in Hab. subst b. now rewrite Hbc.
  - apply Ascii.compare_eq_iff in Hbc. subst c. now rewrite Hab.
  - now rewrite (ascii_compare_trans a b c Lt Hab Hbc).
Qed.

Section SortingFacts.
Context {A : Type} (key : A -> string).

Lemma insert_by_perm (x : A) (l : list A) :
  Permutation (x :: l) (insert_by key x l).
Proof.
  induction l as [|y l IH]; simpl; [apply Permutation_refl|].
  destruct (String.leb (key x) (key y)); [apply Permutation_refl|].
  eapply Permutation_trans; [apply perm_swap|].
  now apply perm_skip.
Qed.

Lemma sorted_by_perm (l : list A) : Permutation l (sorted_by key l).
Proof.
  induction l as [|x l IH]; simpl; [constructor|].
  eapply Permutation_trans; [|apply insert_by_perm].
  now apply perm_skip.
Qed.

Lemma sorted_by_In (x : A) (l : list A) : In x (sorted_by key l) <-> In x l.
Proof.
  split; intros H.
  - eapply Permutation_in; [apply Permutation_sym, sorted_by_perm | exact H].
  - eapply Permutation_in; [apply sorted_by_perm | exact H].
Qed.

Lemma insert_by_HdRel (a x : A) (l : list A) :
  HdRel (key_le key) a l -> key_le key a x ->
  HdRel (key_le key) a (insert_by key x l).
Proof.
  intros Hl Hx. destruct l as [|y l]; simpl.
  - now constructor.
  - destruct (String.leb (key x) (key y)); constructor; trivial.
    now inversion Hl.
Qed.

Lemma insert_by_sorted (x : A) (l : list A) :
  Sorted (key_le key) l -> Sorted (key_le key) (insert_by key x l).
Proof.
  induction 1 as [|y l Hs IH Hhd]; simpl.
  - repeat constructor.
  - destruct (String.leb (key x) (key y)) eqn:E.
    + constructor; [now constructor | now constructor].
    + constructor; [exact IH|].
      apply insert_by_HdRel; [exact Hhd|].
      unfold key_le. destruct (String.leb_total (key x) (key y)); congruence.
Qed.

Lemma sorted_by_ascending (l : list A) : ascending key (sorted_by key l).
Proof.
  unfold ascending. induction l as [|x l IH]; simpl; [constructor|].
  now apply insert_by_sorted.
Qed.

(** Ascending in the strong sense: every element is below all that follow. *)
Lemma ascending_strongly (l : list A) :
  ascending key l -> StronglySorted (key_le key) l.
Proof.
  apply Sorted_StronglySorted. intros a b c. apply string_leb_trans.
Qed.

(** Stability: elements with the same key keep their relative order. *)
Lemma insert_by_filter (p : A -> bool) (x : A) (l : list A) :
  (forall y, In y l -> p x = true -> p y = true ->
             String.leb (key x) (key y) = true) ->
  filter p (insert_by key x l) = filter p (x :: l).
Proof.
  induction l as [|y l IH]; intros H; [reflexivity|].
  simpl. destruct (String.leb (key x) (key y)) eqn:E; [reflexivity|].
  simpl. rewrite IH by (intros z Hz; apply H; now right).
  simpl. destruct (p x) eqn:Px; [|reflexivity].
  destruct (p y) eqn:Py; [|reflexivity].
  rewrite (H y (or_introl eq_refl) eq_refl Py) in E. discriminate.
Qed.

Lemma sorted_by_stable (k : string) (l : list A) :
  filter (fun a => String.eqb (key a) k) (sorted_by key l)
  = filter (fun a => String.eqb (key a) k) l.
Proof.
  induction l as [|x l IH]; [reflexivity|].
  simpl sorted_by. rewrite insert_by_filter.
  - simpl. now rewrite IH.
  - intros y _ Hx Hy.
    apply String.eqb_eq in Hx, Hy. rewrite Hx, Hy.
    destruct (String.leb_total k k); assumption.
Qed.

End SortingFacts.

Example sorted_example :
  sorted ["b"; "a"; "B"; "_x"] = ["B"; "_x"; "a"; "b"].
Proof. reflexivity. Qed.

(** ** Path resolution *)

Module ResolveFacts.
Import PyStr PyStrFacts Inspector ResolveSpec.

Section WithProvider.
Context {obj : Type} (P : Provider obj).

Lemma soft_not_found (path : string) : soft (not_found path) = true.
Proof. reflexivity. Qed.

Lemma resolve_from_step (path : string) (parts : list string) (i : nat) :
  resolve_from P path parts (S i) =
  match try_split P parts (S i) with
  | Ok r => Ok r
  | Raise e => if soft e then resolve_from P path parts i else Raise e
  end.
Proof.
  cbn [resolve_from]. destruct (try_split P parts (S i)) as [r|e]; [reflexivity|].
  unfold soft. destruct (catches [ImportError] e); [reflexivity|].
  destruct (catches [AttributeError] e); reflexivity.
Qed.

(** What a scan started at [n] returns, in terms of the candidates. *)
Lemma resolve_from_spec (path : string) (parts : list string) (n : nat) :
  match resolve_from P path parts n with
  | Ok r =>
      exists i, (1 <= i <= n)%nat /\ try_split P parts i = Ok r /\
                forall k, (i < k <= n)%nat -> abandoned P parts k
  | Raise e =>
      (e = not_found path /\
       forall k, (1 <= k <= n)%nat -> abandoned P parts k)
      \/ (exists i, (1 <= i <= n)%nat /\ try_split P parts i = Raise e /\
                    soft e = false /\
                    forall k, (i < k <= n)%nat -> abandoned P parts k)
  end.
Proof.
  induction n as [|n IH].
  - simpl. left. split; [reflexivity | intros k Hk; lia].
  - rewrite resolve_from_step.
    destruct (try_split P parts (S n)) as [r|e] eqn:E.
    + exists (S n). split; [lia|]. split; [exact E|]. intros k Hk; lia.
    + destruct (soft e) eqn:Es.
      * assert (Hab : forall k, k = S n -> abandoned P parts k)
          by (intros k ->; exists e; auto).
        destruct (resolve_from P path parts n) as [r|e'].
        -- destruct IH as (i & Hi & Hr & Hk). exists i.
           split; [lia|]. split; [exact Hr|].
           intros k Hk'. destruct (Nat.eq_dec k (S n)); [auto | apply Hk; lia].
        -- destruct IH as [[-> Hk] | (i & Hi & Hr & Hs & Hk)].
           ++ left. split; [reflexivity|]. intros k Hk'.
              destruct (Nat.eq_dec k (S n)); [auto | apply Hk; lia].
           ++ right. exists i. split; [lia|]. split; [exact Hr|].
              split; [exact Hs|]. intros k Hk'.
              destruct (Nat.eq_dec k (S n)); [auto | apply Hk; lia].
      * right. exists (S n). split; [lia|]. split; [exact E|].
        split; [exact Es|]. intros k Hk; lia.
Qed.

(** The scan returns what the first candidate that is not given up does. *)
Lemma resolve_from_first (path : string) (parts : list string) (n i : nat) :
  (1 <= i <= n)%nat ->
  (forall k, (i < k <= n)%nat -> abandoned P parts k) ->
  resolve_from P path parts n =
  match try_split P parts i with
  | Ok r => Ok r
  | Raise e => if soft e then resolve_from P path parts (i - 1) else Raise e
  end.
Proof.
  induction n as [|n IH]; intros Hi Hk; [lia|].
  destruct (Nat.eq_dec i (S n)) as [->|Hne].
  - rewrite resolve_from_step. simpl. now rewrite Nat.sub_0_r.
  - rewrite resolve_from_step.
    destruct (Hk (S n)) as (e & -> & ->); [lia|].
    apply IH; [lia|]. intros k Hk'. apply Hk. lia.
Qed.

Lemma resolve_from_all_abandoned (path : string) (parts : list string) (n : nat) :
  (forall k, (1 <= k <= n)%nat -> abandoned P parts k) ->
  resolve_from P path parts n = Raise (not_found path).
Proof.
  induction n as [|n IH]; intros Hk; [reflexivity|].
  rewrite resolve_from_step.
  destruct (Hk (S n)) as (e & -> & ->); [lia|].
  apply IH. intros k Hk'. apply Hk. lia.
Qed.

(** C3 (as amended).  The candidates are scanned from the longest namespace
    prefix to the shortest, a candidate being given up when it raises
    [ImportError] or [AttributeError]:
    - if candidate [i] imports and its whole attribute suffix resolves, and
      every longer candidate is given up, the result is that of candidate
      [i] (no shorter one is used), and every returned result arises so;
    - a path with no separator is attempted only as a whole-string import;
    - the function fails with the [ImportError] carrying the original path
      if and only if every candidate is given up;
    - an exception of another class raised by the first candidate that is
      not given up leaves the function unchanged. *)
Theorem resolve_dotted_path_longest_first (path : string) :
  (forall i r,
      (1 <= i <= List.length (split dot path))%nat ->
      try_split P (split dot path) i = Ok r ->
      (forall k, (i < k <= List.length (split dot path))%nat ->
                 abandoned P (split dot path) k) ->
      resolve_dotted_path P path = Ok r)
  /\ (forall r,
        resolve_dotted_path P path = Ok r ->
        exists i, (1 <= i <= List.length (split dot path))%nat /\
                  try_split P (split dot path) i = Ok r /\
                  forall k, (i < k <= List.length (split dot path))%nat ->
                            abandoned P (split dot path) k)
  /\ (contains dot path = false ->
        resolve_dotted_path P path =
        match import_module P path with
        | Ok o => Ok (o, path, [])
        | Raise e => if soft e then Raise (not_found path) else Raise e
        end)
  /\ (resolve_dotted_path P path = Raise (not_found path) <->
        forall k, (1 <= k <= List.length (split dot path))%nat ->
                  abandoned P (split dot path) k)
  /\ (forall i e,
        (1 <= i <= List.length (split dot path))%nat ->
        try_split P (split dot path) i = Raise e ->
        soft e = false ->
        (forall k, (i < k <= List.length (split dot path))%nat ->
                   abandoned P (split dot path) k) ->
        resolve_dotted_path P path = Raise e).
Proof.
  unfold resolve_dotted_path.
  split; [|split; [|split; [|split]]].
  - intros i r Hi Hr Hk.
    rewrite (resolve_from_first path _ _ i Hi Hk). now rewrite Hr.
  - intros r Hr.
    pose proof (resolve_from_spec path (split dot path)
                  (List.length (split dot path))) as H.
    rewrite Hr in H. exact H.
  - intros Hc. rewrite (split_no_sep _ _ Hc).
    cbn [List.length]. rewrite resolve_from_step.
    unfold try_split. cbn [firstn skipn join String.concat traverse].
    destruct (import_module P path) as [o|e]; cbn [bind]; [reflexivity|].
    destruct (soft e); reflexivity.
  - split.
    + intros Hr.
      pose proof (resolve_from_spec path (split dot path)
                    (List.length (split dot path))) as H.
      rewrite Hr in H. destruct H as [[_ H] | (i & _ & _ & Hs & _)].
      * exact H.
      * rewrite soft_not_found in Hs. discriminate.
    + apply resolve_from_all_abandoned.
  - intros i e Hi He Hs Hk.
    rewrite (resolve_from_first path _ _ i Hi Hk). now rewrite He, Hs.
Qed.

End WithProvider.
End ResolveFacts.

Module ResolveExamples.
Import PyStr Inspector ResolveSpec ResolveFacts Heap.

Lemma resolve_dotted_path_longest_first_witness :
  resolve_dotted_path (provider os_world) "os.path.join"
  = Ok (3%nat, "os.path", ["join"]).
Proof.
  apply (proj1 (resolve_dotted_path_longest_first (provider os_world)
                  "os.path.join") 2%nat).
  - vm_compute. split; repeat constructor.
  - reflexivity.
  - intros k Hk. assert (k = 3%nat) as -> by (vm_compute in Hk; lia).
    eexists. split; reflexivity.
Defined.

(** C3, as stated, fails: candidate 1 of [pkg.mod] imports [pkg] and
    resolves [mod], no longer candidate succeeds, and yet the function
    fails, with the exception of the longer candidate, which does not carry
    the path. *)
Lemma resolve_dotted_path_counterexample :
  try_split (provider broken_submodule_world) (split dot "pkg.mod") 1
  = Ok (2%nat, "pkg", ["mod"])
  /\ (forall r, try_split (provider broken_submodule_world)
                  (split dot "pkg.mod") 2 <> Ok r)
  /\ resolve_dotted_path (provider broken_submodule_world) "pkg.mod"
     = Raise (mk_exn RuntimeError "boom")
  /\ resolve_dotted_path (provider broken_submodule_world) "pkg.mod"
     <> Raise (not_found "pkg.mod").
Proof.
  split; [reflexivity|]. split; [intros r; discriminate|].
  split; [reflexivity | discriminate].
Qed.

End ResolveExamples.

(** ** Classification *)

Module ClassifyFacts.
Import PyStr Inspector ClassifySpec.

Section WithProvider.
Context {obj : Type} (P : Provider obj).

(** The function is the first-match evaluation of the precedence list. *)
Lemma classify_object_first_match (o : obj) (name : string) :
  classify_object P o name = classify_spec P o name.
Proof.
  unfold classify_object, classify_spec, rules, and_then.
  cbn [first_match bind].
  destruct (ismodule P o) as [[|]|?]; cbn [bind];
    [destruct (has_path P o) as [[|]|?]; reflexivity | | reflexivity].
  destruct (isclass P o) as [[|]|?]; cbn [bind]; try reflexivity.
  destruct (isbuiltin P o) as [[|]|?]; cbn [bind]; try reflexivity.
  destruct (isfunction P o) as [[|]|?]; cbn [bind]; try reflexivity.
  destruct (ismethod P o) as [[|]|?]; cbn [bind]; try reflexivity.
  destruct (is_classmethod P o) as [[|]|?]; cbn [bind]; try reflexivity.
  destruct (is_staticmethod P o) as [[|]|?]; cbn [bind]; try reflexivity.
  destruct (is_property P o) as [[|]|?]; cbn [bind]; try reflexivity.
  destruct (truthy name && isupper P name); cbn [bind]; [|reflexivity].
  destruct (is_simple P o) as [[|]|?]; reflexivity.
Qed.

(** Rewrite with every answer at hand. *)
Ltac use_answers :=
  repeat match goal with
         | E : _ = Ok _ |- _ => rewrite E; clear E
         | E : _ = Raise _ |- _ => rewrite E; clear E
         | E : _ = true |- _ => rewrite E; clear E
         | E : _ = false |- _ => rewrite E; clear E
         end.

Lemma classify_object_Ok (o : obj) (name : string) (k : MemberKind) :
  classify_object P o name = Ok k <-> decided_by P o name k.
Proof.
  split.
  - unfold classify_object, decided_by, upper_case. cbn [bind].
    destruct (ismodule P o) as [[|]|?] eqn:T1; cbn [bind];
      [destruct (has_path P o) as [[|]|?]; intros [= <-]; auto
      | | discriminate].
    destruct (isclass P o) as [[|]|?] eqn:T2; cbn [bind];
      [intros [= <-]; cbn; auto | | discriminate].
    destruct (isbuiltin P o) as [[|]|?] eqn:T3; cbn [bind];
      [intros [= <-]; cbn; auto | | discriminate].
    destruct (isfunction P o) as [[|]|?] eqn:T4; cbn [bind];
      [intros [= <-]; cbn; auto 6 | | discriminate].
    destruct (ismethod P o) as [[|]|?] eqn:T5; cbn [bind];
      [intros [= <-]; cbn; auto 7 | | discriminate].
    destruct (is_classmethod P o) as [[|]|?] eqn:T6; cbn [bind];
      [intros [= <-]; cbn; auto 8 | | discriminate].
    destruct (is_staticmethod P o) as [[|]|?] eqn:T7; cbn [bind];
      [intros [= <-]; cbn; auto 9 | | discriminate].
    destruct (is_property P o) as [[|]|?] eqn:T8; cbn [bind];
      [intros [= <-]; cbn; auto 10 | | discriminate].
    destruct (truthy name && isupper P name) eqn:U; cbn [bind].
    + destruct (is_simple P o) as [[|]|?] eqn:T9; intros [= <-]; cbn;
        auto 12.
    + intros [= <-]. cbn. auto 12.
  - unfold decided_by, upper_case, classify_object.
    destruct k; cbn; intros H;
      repeat match goal with
             | H : _ /\ _ |- _ => destruct H
             | H : _ \/ _ |- _ => destruct H
             | H : False |- _ => destruct H
             end;
      use_answers; reflexivity.
Qed.

Lemma classify_object_Raise (o : obj) (name : string) (e : exn) :
  classify_object P o name = Raise e <-> first_failure P o name e.
Proof.
  unfold first_failure, upper_case. split.
  - unfold classify_object. cbn [bind].
    destruct (ismodule P o) as [[|]|?] eqn:T1; cbn [bind];
      [destruct (has_path P o) as [[|]|?]; [discriminate..|];
       intros [= <-]; auto
      | | intros [= <-]; left; exists 0%nat; cbn; now rewrite T1].
    destruct (isclass P o) as [[|]|?] eqn:T2; cbn [bind];
      [discriminate | | intros [= <-]; left; exists 1%nat; cbn;
                        now rewrite T1, T2].
    destruct (isbuiltin P o) as [[|]|?] eqn:T3; cbn [bind];
      [discriminate | | intros [= <-]; left; exists 2%nat; cbn;
                        now rewrite T1, T2, T3].
    destruct (isfunction P o) as [[|]|?] eqn:T4; cbn [bind];
      [discriminate | | intros [= <-]; left; exists 3%nat; cbn;
                        now rewrite T1, T2, T3, T4].
    destruct (ismethod P o) as [[|]|?] eqn:T5; cbn [bind];
      [discriminate | | intros [= <-]; left; exists 4%nat; cbn;
                        now rewrite T1, T2, T3, T4, T5].
    destruct (is_classmethod P o) as [[|]|?] eqn:T6; cbn [bind];
      [discriminate | | intros [= <-]; left; exists 5%nat; cbn;
                        now rewrite T1, T2, T3, T4, T5, T6].
    destruct (is_staticmethod P o) as [[|]|?] eqn:T7; cbn [bind];
      [discriminate | | intros [= <-]; left; exists 6%nat; cbn;
                        now rewrite T1, T2, T3, T4, T5, T6, T7].
    destruct (is_property P o) as [[|]|?] eqn:T8; cbn [bind];
      [discriminate | | intros [= <-]; left; exists 7%nat; cbn;
                        now rewrite T1, T2, T3, T4, T5, T6, T7, T8].
    destruct (truthy name && isupper P name) eqn:U; cbn [bind];
      [|discriminate].
    destruct (is_simple P o) as [[|]|?] eqn:T9; [discriminate..|].
    intros [= <-]. right. right. cbn.
    rewrite T1, T2, T3, T4, T5, T6, T7, T8. auto 12.
  - unfold classify_object.
    intros [(n & Hb & Hn) | [[H1 H2] | (Hb & U & Hs)]].
    + do 8 (destruct n as [|n];
            [cbn in Hb, Hn; injection Hn as Hn;
             repeat match goal with H : _ /\ _ |- _ => destruct H end;
             use_answers; reflexivity|]).
      destruct n; discriminate Hn.
    + now rewrite H1, H2.
    + cbn in Hb.
      repeat match goal with H : _ /\ _ |- _ => destruct H end.
      use_answers. reflexivity.
Qed.

(** C5 (as amended).  [classify_object] is the first-match evaluation of
    the precedence list of the specification, [VARIABLE] being the
    fallback.  It returns a tag exactly when the test of the rule of that
    tag answers yes and the tests before it answer no - [CONSTANT] asking
    for a non-empty name for which [isupper] holds and a value of the
    scalar set, after the eight type tests answered no - and it never
    returns [DATA].  It is not total: it raises exactly when the first
    test that does not answer no raises.  A native or plain function is
    [BUILTIN] or [FUNCTION] whatever its name, never [CONSTANT]; but being
    callable decides nothing: a bound method is [METHOD], and a callable
    value of the scalar set, under an upper-case name, is [CONSTANT]. *)
Theorem classify_object_precedence (o : obj) (name : string) :
  classify_object P o name = classify_spec P o name
  /\ (forall k, classify_object P o name = Ok k <-> decided_by P o name k)
  /\ classify_object P o name <> Ok DATA
  /\ (forall e, classify_object P o name = Raise e
                <-> first_failure P o name e)
  /\ (all_no [ismodule P o; isclass P o] ->
      (isbuiltin P o = Ok true -> classify_object P o name = Ok BUILTIN)
      /\ (isbuiltin P o = Ok false -> isfunction P o = Ok true ->
          classify_object P o name = Ok FUNCTION))
  /\ (isbuiltin P o = Ok true \/ isfunction P o = Ok true ->
      classify_object P o name <> Ok CONSTANT)
  /\ (callable P o = true ->
      (all_no (firstn 4 (type_tests P o)) -> ismethod P o = Ok true ->
       classify_object P o name = Ok METHOD)
      /\ (all_no (type_tests P o) -> upper_case P name = true ->
          is_simple P o = Ok true ->
          classify_object P o name = Ok CONSTANT)).
Proof.
  split; [apply classify_object_first_match|].
  split; [apply classify_object_Ok|].
  split; [intros H; now apply classify_object_Ok in H|].
  split; [apply classify_object_Raise|].
  split; [|split].
  - intros (H1 & H2 & _). split.
    + intros H3. apply classify_object_Ok. cbn. auto.
    + intros H3 H4. apply classify_object_Ok. cbn. auto 6.
  - intros H C. apply classify_object_Ok in C. cbn in C.
    destruct C as ((_ & _ & Hb & Hf & _) & _).
    destruct H as [H|H]; congruence.
  - intros _. split.
    + intros Hb Hm. apply classify_object_Ok. cbn. auto.
    + intros Hb Hu Hs. apply classify_object_Ok. cbn. auto.
Qed.

End WithProvider.

Lemma classify_object_precedence_witness :
  classify_object (Heap.provider Heap.upper_names_world) 2 "MAX" = Ok FUNCTION
  /\ classify_object (Heap.provider Heap.upper_names_world) 4 "LIMIT"
     = Ok CONSTANT.
Proof.
  split.
  - apply (proj2 (proj1 (proj2 (proj2 (proj2 (proj2
             (classify_object_precedence
                (Heap.provider Heap.upper_names_world) 2%nat "MAX")))))
             (conj eq_refl (conj eq_refl I)))); reflexivity.
  - apply (proj1 (proj2 (classify_object_precedence
                           (Heap.provider Heap.upper_names_world)
                           4%nat "LIMIT"))).
    cbn. repeat split.
Defined.

(** C5, as stated, fails on both counts.  A callable bound to an upper-case
    name is not always [BUILTIN] or [FUNCTION]: a callable instance of a
    subclass of [int] is [CONSTANT], and a bound method is [METHOD].  And
    the function is not total: on a lazy proxy the first type test raises,
    and so does the classifier. *)
Lemma classify_object_callable_counterexample :
  let P := Heap.provider Heap.callable_constant_world in
  (callable P 2 = true
   /\ isupper P "ENABLED" = true
   /\ classify_object P 2 "ENABLED" = Ok CONSTANT)
  /\ (callable P 3 = true
      /\ isupper P "RESET" = true
      /\ classify_object P 3 "RESET" = Ok METHOD)
  /\ classify_object (Heap.provider Heap.lazy_world) 3 "conf"
     = Raise Heap.unbound.
Proof. repeat split. Qed.

End ClassifyFacts.

(** ** Signature extraction *)

Module SignatureFacts.
Import PyStr Inspector SignatureSpec.

Section WithProvider.
Context {obj : Type} (P : Provider obj).







End WithProvider.


End SignatureFacts.

(** ** The two scans *)

Module ScanFacts.
Import PyStr Inspector SignatureSpec ScanSpec AncestrySpec.

Section WithProvider.
Context {obj : Type} (P : Provider obj).


(** A signature query that raises leaves no signature. *)
Lemma extract_signature_absent (o : obj) (e : exn)
    (sg : option SignatureInfo.t) :
  signature P o = Raise e -> extract_signature P o = Ok sg -> sg = None.
Proof.
  unfold extract_signature. intros ->.
  destruct (catches [ValueError; TypeError] e); [|discriminate].
  now intros [= <-].
Qed.




Lemma create_member_info_fields (o : obj) (name : string) (k : MemberKind)
    (parent : string) (imp : bool) (i : MemberInfo.t) :
  _create_member_info P o name k parent imp = Ok i ->
  MemberInfo.name i = name /\ MemberInfo.kind i = k
  /\ MemberInfo.qualified_name i = (parent ++ "." ++ name)%string
  /\ MemberInfo.is_imported i = imp
  /\ MemberInfo.value_repr i = None
  /\ (callable P o = false -> MemberInfo.signature i = None)
  /\ (forall e, signature P o = Raise e -> MemberInfo.signature i = None).
Proof.
  unfold _create_member_info. intros H. inv_bind H. inv_bind H.
  injection H as <-. cbn. repeat (split; [reflexivity|]). split.
  - intros C. rewrite C in E0. now injection E0 as <-.
  - intros e He. destruct (callable P o).
    + eapply extract_signature_absent; eassumption.
    + now injection E0 as <-.
Qed.

(** *** The class scan *)




Lemma inspect_class_fields (cls : obj) (qn : string) (ip : bool)
    (ci : ClassInfo.t) :
  inspect_class P cls qn ip = Ok ci ->
  dunder_name P cls = Ok (ClassInfo.name ci)
  /\ ClassInfo.kind ci = CLASS
  /\ ClassInfo.qualified_name ci = qn
  /\ (exists bases mro,
        dunder_bases P cls = Ok bases
        /\ names_of P (filter (not_root P) bases) (ClassInfo.bases ci)
        /\ dunder_mro P cls = Ok mro
        /\ names_of P (slice_1_m1 mro) (ClassInfo.mro ci))
  /\ class_buckets_ascending ci.
Proof.
  unfold inspect_class. intros H. do 10 (inv_bind H).
  injection H as <-. unfold class_buckets_ascending. cbn.
  split; [exact E1|]. split; [reflexivity|]. split; [reflexivity|]. split.
  - exists a4, a6. split; [exact E4|]. split; [|split; [exact E6|]].
    + apply mapM_Ok_Forall2. exact E5.
    + apply mapM_Ok_Forall2. exact E7.
  - repeat split; apply sorted_by_ascending.
Qed.

(** *** The namespace scan *)



Lemma member_step_skip (mn : string) (ip ii : bool) (b : string * obj)
    (acc : module_buckets) :
  kept P mn ip ii b = Ok false -> member_step P mn ip ii b acc = Ok acc.
Proof.
  destruct b as [name o]. unfold kept, member_step. simpl.
  destruct (negb ip && startswith name "_"); [reflexivity|].
  destruct (ismodule P o) as [[|]|e]; cbn [bind];
    [reflexivity | | discriminate].
  destruct (imported_from P mn o) as [imp|e]; cbn [bind]; [|discriminate].
  destruct (negb ii && imp); [reflexivity | discriminate].
Qed.

Lemma member_step_kept (mn : string) (ip ii : bool) (name : string) (o : obj)
    (acc : module_buckets) :
  kept P mn ip ii (name, o) = Ok true ->
  exists imp,
    imported_from P mn o = Ok imp
    /\ negb ip && startswith name "_" = false
    /\ ismodule P o = Ok false
    /\ negb ii && imp = false
    /\ member_step P mn ip ii (name, o) acc = member_body P mn ip name o imp acc.
Proof.
  unfold kept. cbn [fst snd]. intros K.
  destruct (negb ip && startswith name "_") eqn:Hp; [discriminate|].
  destruct (ismodule P o) as [[|]|e] eqn:Hm; cbn [bind] in K;
    try discriminate.
  destruct (imported_from P mn o) as [imp|e] eqn:Hi; cbn [bind] in K;
    try discriminate.
  injection K as K. apply negb_true_iff in K.
  exists imp. do 3 (split; [reflexivity|]). split; [exact K|].
  unfold member_step, member_body. cbv beta iota.
  rewrite Hp, Hm. cbn [bind]. rewrite Hi. cbn [bind]. now rewrite K.
Qed.

(** A step that returns has evaluated the filters. *)
Lemma member_step_Ok_kept (mn : string) (ip ii : bool) (b : string * obj)
    (acc acc' : module_buckets) :
  member_step P mn ip ii b acc = Ok acc' -> returns (kept P mn ip ii b).
Proof.
  destruct b as [name o]. unfold kept, member_step. simpl.
  destruct (negb ip && startswith name "_"); [eexists; reflexivity|].
  destruct (ismodule P o) as [[|]|e]; cbn [bind];
    [eexists; reflexivity | | discriminate].
  destruct (imported_from P mn o) as [imp|e]; cbn [bind]; [|discriminate].
  eexists; reflexivity.
Qed.













Lemma member_step_classes (mn : string) (ip ii : bool) (b : string * obj)
    (acc acc' : module_buckets) :
  member_step P mn ip ii b acc = Ok acc' ->
  Forall (from_inspect_class P ip) (mb_classes acc) ->
  Forall (from_inspect_class P ip) (mb_classes acc').
Proof.
  intros H F. destruct (member_step_Ok_kept _ _ _ _ _ _ H) as [[|] K].
  - destruct b as [name o].
    destruct (member_step_kept mn ip ii name o acc K)
      as (imp & _ & _ & _ & _ & E).
    rewrite E in H. unfold member_body in H. inv_bind H.
    destruct a;
      try (injection H as <-; exact F);
      repeat (inv_bind H); injection H as <-; simpl; trivial.
    apply Forall_app. split; [exact F|]. constructor; [|constructor].
    eexists _, _. eassumption.
  - rewrite (member_step_skip _ _ _ _ _ K) in H. now injection H as <-.
Qed.

Lemma scan_members_classes (mn : string) (ip ii : bool)
    (members : list (string * obj)) (acc acc' : module_buckets) :
  scan_members P mn ip ii members acc = Ok acc' ->
  Forall (from_inspect_class P ip) (mb_classes acc) ->
  Forall (from_inspect_class P ip) (mb_classes acc').
Proof.
  revert acc. induction members as [|b l IH]; intros acc H F; simpl in H.
  - now injection H as <-.
  - inv_bind H. eapply IH; [exact H|].
    eapply member_step_classes; eassumption.
Qed.


(** What a returned [ModuleInfo] is made of. *)
Lemma inspect_module_inv (m : obj) (ip ii : bool) (mi : ModuleInfo.t) :
  inspect_module P m ip ii = Ok mi ->
  exists mn subs members b doc is_pkg file,
    dunder_name P m = Ok mn
    /\ discover_submodules P m = Ok subs
    /\ getmembers P m = Ok members
    /\ scan_members P mn ip ii members empty_mb = Ok b
    /\ getdoc P m = Ok doc
    /\ (if nonempty subs then Ok true else has_path P m) = Ok is_pkg
    /\ dunder_file P m = Ok file
    /\ mi = ModuleInfo.mk
              (MemberInfo.mk (last_part (split dot mn))
                 (if nonempty subs then PACKAGE else MODULE)
                 mn doc None None false false None false None)
              is_pkg file (sorted subs)
              (sorted_by ClassInfo.name (mb_classes b))
              (sorted_by MemberInfo.name (mb_functions b))
              (sorted_by MemberInfo.name (mb_constants b))
              (sorted_by MemberInfo.name (mb_variables b)).
Proof.
  unfold inspect_module. intros H. do 7 (inv_bind H).
  injection H as <-. eexists _, _, _, _, _, _, _.
  repeat (split; [eassumption|]). reflexivity.
Qed.

(** The discovery asks for the storage path first. *)
Lemma discover_submodules_inv (m : obj) (subs : list string) :
  discover_submodules P m = Ok subs ->
  exists h, has_path P m = Ok h /\ (h = false -> subs = []).
Proof.
  unfold discover_submodules. intros H. inv_bind H. exists a.
  split; [exact E|]. intros ->. now injection H as <-.
Qed.



(** C8.  Every list of a returned [ModuleInfo] - submodules, classes,
    functions, constants, variables - is ascending by name, and so is every
    bucket - methods, class methods, static methods, properties, class
    variables - of a returned [ClassInfo], those listed in a [ModuleInfo]
    included. *)
Theorem buckets_ascending_by_name :
  (forall m ip ii mi,
      inspect_module P m ip ii = Ok mi ->
      ascending (fun s => s) (ModuleInfo.submodules mi)
      /\ ascending ClassInfo.name (ModuleInfo.classes mi)
      /\ ascending MemberInfo.name (ModuleInfo.functions mi)
      /\ ascending MemberInfo.name (ModuleInfo.constants mi)
      /\ ascending MemberInfo.name (ModuleInfo.variables mi)
      /\ Forall class_buckets_ascending (ModuleInfo.classes mi))
  /\ (forall cls qn ip ci,
        inspect_class P cls qn ip = Ok ci -> class_buckets_ascending ci).
Proof.
  split.
  - intros m ip ii mi H.
    destruct (inspect_module_inv _ _ _ _ H)
      as (mn & subs & members & b & doc & pk & file & _ & _ & _ & Hs & _ & _
          & _ & ->).
    cbn. repeat (split; [apply sorted_by_ascending|]).
    apply Forall_forall. intros ci Hci. apply sorted_by_In in Hci.
    assert (F : Forall (from_inspect_class P ip) (mb_classes b))
      by (eapply scan_members_classes; [exact Hs | constructor]).
    rewrite Forall_forall in F. destruct (F ci Hci) as (o & qn & Ho).
    now destruct (inspect_class_fields _ _ _ _ Ho) as (_ & _ & _ & _ & ?).
  - intros cls qn ip ci H.
    now destruct (inspect_class_fields _ _ _ _ H) as (_ & _ & _ & _ & ?).
Qed.


(** *** The kinds of a namespace *)

Lemma inspect_path_on_module (path : string) (ip ii : bool) (o : obj)
    (mp : string) (attrs : list string) (mi : ModuleInfo.t) (h : bool) :
  resolve_dotted_path P path = Ok (o, mp, attrs) ->
  ismodule P o = Ok true ->
  has_path P o = Ok h ->
  inspect_module P o ip ii = Ok mi ->
  inspect_path P path ip ii =
  Ok (InspectionResult.mk path path
        (if h then PACKAGE else MODULE) (InfoModule mi) None).
Proof.
  intros Hr Hm Hh Hi. unfold inspect_path, inspect_path_body.
  rewrite Hr. cbn [bind]. unfold classify_object. rewrite Hm. cbn [bind].
  rewrite Hh. cbn [bind]. destruct h; rewrite Hi; reflexivity.
Qed.

(** C9.  The kind inside the [ModuleInfo] is [PACKAGE] exactly when the
    submodule discovery found a submodule, whatever the storage path; the
    kind of the envelope follows the storage-path test of the classifier;
    so a package with a storage path and no discoverable submodule has
    envelope kind [PACKAGE] and inner kind [MODULE]; and [is_package] holds
    as soon as one of the two conditions does. *)
Theorem module_kind_from_submodules (m : obj) (ip ii : bool)
    (mi : ModuleInfo.t) :
  inspect_module P m ip ii = Ok mi ->
  exists subs,
    discover_submodules P m = Ok subs
    /\ (ModuleInfo.kind mi = PACKAGE <-> subs <> [])
    /\ (ModuleInfo.kind mi = MODULE <-> subs = [])
    /\ (ModuleInfo.is_package mi = true
        <-> subs <> [] \/ has_path P m = Ok true)
    /\ (forall path mp attrs,
          resolve_dotted_path P path = Ok (m, mp, attrs) ->
          ismodule P m = Ok true ->
          exists r,
            inspect_path P path ip ii = Ok r
            /\ InspectionResult.error r = None
            /\ InspectionResult.info r = InfoModule mi
            /\ (InspectionResult.kind r = PACKAGE <-> has_path P m = Ok true)
            /\ (InspectionResult.kind r = MODULE <-> has_path P m = Ok false)
            /\ (has_path P m = Ok true -> subs = [] ->
                InspectionResult.kind r = PACKAGE
                /\ ModuleInfo.kind mi = MODULE
                /\ ModuleInfo.is_package mi = true)).
Proof.
  intros H.
  destruct (inspect_module_inv _ _ _ _ H)
    as (mn & subs & members & b & doc & pk & file & _ & Hs & _ & _ & _ & Hpk
        & _ & E).
  destruct (discover_submodules_inv _ _ Hs) as (h & Hh & Hnil).
  exists subs. split; [exact Hs|].
  assert (Hk : ModuleInfo.kind mi = if nonempty subs then PACKAGE else MODULE)
    by (rewrite E; reflexivity).
  assert (Hp : ModuleInfo.is_package mi = nonempty subs || h).
  { rewrite E. cbn. destruct (nonempty subs); [now injection Hpk as <-|].
    rewrite Hh in Hpk. now injection Hpk as <-. }
  split; [|split; [|split]].
  - rewrite Hk. destruct subs; simpl; split; congruence.
  - rewrite Hk. destruct subs; simpl; split; congruence.
  - rewrite Hp, Hh. destruct subs; simpl.
    + split; [intros ->; now right | intros [F|[= F]]; [congruence | exact F]].
    + split; [intros _; left; discriminate | reflexivity].
  - intros path mp attrs Hr Hm.
    rewrite (inspect_path_on_module path ip ii m mp attrs mi h Hr Hm Hh H).
    eexists. split; [reflexivity|]. cbn.
    split; [reflexivity|]. split; [reflexivity|].
    rewrite Hh. destruct h.
    + split; [split; congruence|]. split; [split; congruence|].
      intros _ ->. rewrite Hk, Hp. auto.
    + split; [split; congruence|]. split; [split; congruence|].
      intros F. discriminate F.
Qed.

End WithProvider.
End ScanFacts.

Module ScanExamples.
Import PyStr Inspector SignatureSpec ScanSpec ScanFacts Heap.


(** The two absorbed failures at work: [f] is recorded without signature,
    [LIMIT] with the placeholder in place of its value. *)
Example contained_world_scan :
  exists mi,
    inspect_module (provider contained_world) 1 false false = Ok mi
    /\ map MemberInfo.name (ModuleInfo.functions mi) = ["f"; "g"]
    /\ map MemberInfo.signature (ModuleInfo.functions mi)
       = [None;
          Some (SignatureInfo.mk
                  [ParameterInfo.mk "a" POSITIONAL_OR_KEYWORD None None false;
                   ParameterInfo.mk "p" VAR_POSITIONAL None None false]
                  None (Some "(a, *p)"))]
    /\ map MemberInfo.name (ModuleInfo.constants mi) = ["LIMIT"]
    /\ map MemberInfo.value_repr (ModuleInfo.constants mi) = [Some "<int>"].
Proof. eexists. split; [vm_compute; reflexivity|]. repeat split. Qed.


Lemma buckets_ascending_by_name_witness :
  exists mi,
    inspect_module (provider contained_world) 1 false false = Ok mi
    /\ ascending MemberInfo.name (ModuleInfo.functions mi).
Proof.
  eexists. split; [vm_compute; reflexivity|].
  destruct (proj1 (buckets_ascending_by_name (provider contained_world))
              1%nat false false _ eq_refl) as (_ & _ & Hf & _).
  exact Hf.
Defined.


Lemma module_kind_from_submodules_witness :
  exists r mi,
    inspect_path (provider empty_package_world) "pkg" false false = Ok r
    /\ InspectionResult.info r = InfoModule mi
    /\ InspectionResult.kind r = PACKAGE
    /\ ModuleInfo.kind mi = MODULE
    /\ ModuleInfo.is_package mi = true.
Proof.
  destruct (module_kind_from_submodules (provider empty_package_world)
              1%nat false false _ eq_refl)
    as (subs & Hs & _ & _ & _ & H).
  destruct (H "pkg" "pkg" [] eq_refl eq_refl)
    as (r & Hr & _ & Hi & _ & _ & Hc).
  injection Hs as <-.
  destruct (Hc eq_refl eq_refl) as (H1 & H2 & H3).
  eexists r, _. repeat split; eassumption.
Defined.

End ScanExamples.

(** ** Class ancestry *)

Module AncestryFacts.
Import PyStr Inspector ScanSpec ScanFacts AncestrySpec.

Section WithProvider.
Context {obj : Type} (P : Provider obj).
Hypothesis obj_eqb_spec : identity_test P.

Lemma obj_eqb_refl (a : obj) : obj_eqb P a a = true.
Proof. now apply obj_eqb_spec. Qed.

Lemma obj_eqb_neq (a b : obj) : a <> b -> obj_eqb P a b = false.
Proof.
  intros H. destruct (obj_eqb P a b) eqn:E; [|reflexivity].
  apply obj_eqb_spec in E. contradiction.
Qed.

Lemma negb_obj_eqb_true (a b : obj) : negb (obj_eqb P a b) = true <-> a <> b.
Proof.
  split.
  - intros H ->. now rewrite obj_eqb_refl in H.
  - intros H. now rewrite obj_eqb_neq.
Qed.

(** Dropping the two ends of a well-formed resolution order is dropping the
    class and the root. *)
Lemma slice_mro (cls : obj) (bases mro : list obj) :
  mro_well_formed P cls bases mro ->
  slice_1_m1 mro
  = filter (fun c => negb (obj_eqb P c cls)
                     && negb (obj_eqb P c (the_object P))) mro.
Proof.
  intros (Hnd & Hhd & Hlast & _). unfold slice_1_m1.
  destruct mro as [|h t]; [discriminate|].
  injection Hhd as ->. cbn [tl filter]. rewrite obj_eqb_refl. cbn [negb andb].
  destruct t as [|x t']; [reflexivity|].
  set (t := x :: t') in *.
  assert (Ht : t <> []) by discriminate.
  rewrite (app_removelast_last cls Ht) in Hnd, Hlast |- * at 2.
  change (List.last (cls :: removelast t ++ [List.last t cls]) cls)
    with (List.last ((cls :: removelast t) ++ [List.last t cls]) cls) in Hlast.
  rewrite last_last in Hlast. rewrite Hlast in *.
  apply NoDup_cons_iff in Hnd. destruct Hnd as [Hcls Hnd].
  rewrite filter_app. cbn [filter]. rewrite obj_eqb_refl, andb_false_r.
  rewrite app_nil_r. symmetry. apply forallb_filter_id.
  apply forallb_forall. intros c Hc.
  apply andb_true_iff. split; apply negb_obj_eqb_true.
  - intros ->. apply Hcls. apply in_or_app. now left.
  - intros ->. apply NoDup_remove_2 in Hnd. apply Hnd.
    rewrite app_nil_r. exact Hc.
Qed.

Lemma names_of_In (l : list obj) (names : list string) (n : string) :
  names_of P l names ->
  (In n names <-> exists c, In c l /\ dunder_name P c = Ok n).
Proof.
  intros F. split.
  - intros H. exact (Forall2_In_l _ _ _ _ F H).
  - intros (c & Hc & Hn).
    destruct (Forall2_In_r _ _ _ _ F Hc) as (n' & Hn' & Hr).
    rewrite Hn in Hr. now injection Hr as ->.
Qed.

(** C7 (as amended).  [bases] lists, in order, the names of the direct
    bases other than the root, and [mro] lists, in order, the names of the
    entries of the resolution order between its first and its last.  When
    the order is the one the default linearisation produces - led by the
    class, closed by the root, free of duplicates and holding the direct
    bases - these are the entries other than the class and the root: no
    entry of either list stands for the class itself or for the root.  The
    lists hold bare names, so an ancestor that is another class of the same
    name still appears under that name. *)
Theorem inspect_class_ancestry (cls : obj) (qn : string) (ip : bool)
    (ci : ClassInfo.t) :
  inspect_class P cls qn ip = Ok ci ->
  exists bases mro,
    dunder_bases P cls = Ok bases
    /\ dunder_mro P cls = Ok mro
    /\ names_of P (filter (not_root P) bases) (ClassInfo.bases ci)
    /\ names_of P (slice_1_m1 mro) (ClassInfo.mro ci)
    /\ (forall n, In n (ClassInfo.bases ci) <->
                  exists b, In b bases /\ b <> the_object P
                            /\ dunder_name P b = Ok n)
    /\ (forall n, In n (ClassInfo.mro ci) <->
                  exists c, In c (slice_1_m1 mro) /\ dunder_name P c = Ok n)
    /\ (mro_well_formed P cls bases mro ->
        names_of P
          (filter (fun c => negb (obj_eqb P c cls)
                            && negb (obj_eqb P c (the_object P))) mro)
          (ClassInfo.mro ci)
        /\ (forall n, In n (ClassInfo.mro ci) <->
                      exists c, In c mro /\ c <> cls /\ c <> the_object P
                                /\ dunder_name P c = Ok n)
        /\ (forall n, In n (ClassInfo.bases ci) <->
                      exists b, In b bases /\ b <> cls /\ b <> the_object P
                                /\ dunder_name P b = Ok n)).
Proof.
  intros H.
  destruct (inspect_class_fields _ _ _ _ _ H)
    as (_ & _ & _ & (bases & mro & Hb & Fb & Hm & Fm) & _).
  exists bases, mro. split; [exact Hb|]. split; [exact Hm|].
  split; [exact Fb|]. split; [exact Fm|].
  assert (Bases : forall n, In n (ClassInfo.bases ci) <->
                    exists b, In b bases /\ b <> the_object P
                              /\ dunder_name P b = Ok n).
  { intros n. rewrite (names_of_In _ _ n Fb). split.
    - intros (b & Hin & Hn). apply filter_In in Hin. destruct Hin as [Hin Hf].
      exists b. split; [exact Hin|]. split; [|exact Hn].
      now apply negb_obj_eqb_true.
    - intros (b & Hin & Hr & Hn). exists b. split; [|exact Hn].
      apply filter_In. split; [exact Hin|]. now apply negb_obj_eqb_true. }
  split; [exact Bases|]. split; [intros n; apply (names_of_In _ _ n Fm)|].
  intros Hwf. rewrite (slice_mro cls bases mro Hwf) in Fm.
  split; [exact Fm|]. split.
  - intros n. rewrite (names_of_In _ _ n Fm). split.
    + intros (c & Hin & Hn). apply filter_In in Hin. destruct Hin as [Hin Hf].
      apply andb_true_iff in Hf. destruct Hf as [Hf1 Hf2].
      exists c. split; [exact Hin|].
      split; [now apply negb_obj_eqb_true|].
      split; [now apply negb_obj_eqb_true | exact Hn].
    + intros (c & Hin & Hc & Hr & Hn). exists c. split; [|exact Hn].
      apply filter_In. split; [exact Hin|].
      apply andb_true_iff. split; now apply negb_obj_eqb_true.
  - intros n. rewrite Bases. split.
    + intros (b & Hin & Hr & Hn). exists b. split; [exact Hin|].
      split; [|split; [exact Hr | exact Hn]].
      destruct Hwf as (Hnd & Hhd & _ & Hincl). intros ->.
      apply Hincl in Hin.
      destruct mro as [|h t]; [discriminate|].
      injection Hhd as ->. apply NoDup_cons_iff in Hnd. now destruct Hnd.
    + intros (b & Hin & _ & Hr & Hn). exists b. auto.
Qed.

End WithProvider.

Lemma heap_identity_test (w : Heap.world) : identity_test (Heap.provider w).
Proof. intros a b. apply Nat.eqb_eq. Qed.

Lemma inspect_class_ancestry_witness :
  exists ci,
    inspect_class (Heap.provider Heap.socket_world) 1 "socket.socket" false
    = Ok ci
    /\ names_of (Heap.provider Heap.socket_world) [2%nat] (ClassInfo.mro ci).
Proof.
  eexists. split; [vm_compute; reflexivity|].
  destruct (inspect_class_ancestry (Heap.provider Heap.socket_world)
              (heap_identity_test _) 1%nat "socket.socket" false _ eq_refl)
    as (bases & mro & Hb & Hm & _ & _ & _ & _ & H).
  injection Hb as <-. injection Hm as <-.
  refine (proj1 (H _)).
  repeat split.
  - repeat constructor; simpl; intuition discriminate.
  - intros x [<-|[]]. simpl. now left.
Defined.

(** C7, as stated, fails: [socket.socket] derives from [_socket.socket],
    and both lists of its [ClassInfo] contain the name of the class. *)
Lemma inspect_class_own_name_counterexample :
  exists ci,
    inspect_class (Heap.provider Heap.socket_world) 1 "socket.socket" false
    = Ok ci
    /\ ClassInfo.name ci = "socket"
    /\ ClassInfo.bases ci = ["socket"]
    /\ ClassInfo.mro ci = ["socket"]
    /\ In (ClassInfo.name ci) (ClassInfo.bases ci)
    /\ In (ClassInfo.name ci) (ClassInfo.mro ci).
Proof.
  eexists. split; [vm_compute; reflexivity|]. simpl. intuition.
Qed.

(** The middle of the order is not always free of the root: with the order
    [Odd, object, Base] that a metaclass may return, [mro] holds the name of
    the root and not that of the direct base. *)
Example inspect_class_custom_mro :
  exists ci,
    inspect_class (Heap.provider Heap.custom_mro_world) 1 "m.Odd" false
    = Ok ci
    /\ ClassInfo.bases ci = ["Base"]
    /\ ClassInfo.mro ci = ["object"]
    /\ ~ mro_well_formed (Heap.provider Heap.custom_mro_world) 1%nat
           [2%nat] [1%nat; 0%nat; 2%nat].
Proof.
  eexists. split; [vm_compute; reflexivity|].
  split; [reflexivity|]. split; [reflexivity|].
  intros (_ & _ & H & _). discriminate H.
Qed.

End AncestryFacts.

(** ** The result assembler *)

Module PathFacts.
Import PyStr PyStrFacts Inspector ResolveSpec ResolveFacts ScanFacts PathSpec.

Section WithProvider.
Context {obj : Type} (P : Provider obj).

(** [".".join(parts[:-1]) + "." + parts[-1]] is the path again, when the
    path has a separator. *)
Lemma qualified_name_of_dotted (path : string) :
  contains dot path = true ->
  (join "." (removelast (split dot path)) ++ "."
   ++ last_part (split dot path))%string = path.
Proof.
  intros H. rewrite join_init_last by now apply split_with_sep.
  apply (join_split dot).
Qed.

(** What a completed body is made of. *)
Lemma inspect_path_body_inv (path : string) (ip ii : bool)
    (r : InspectionResult.t) :
  inspect_path_body P path ip ii = Ok r ->
  exists o mp attrs,
    resolve_dotted_path P path = Ok (o, mp, attrs)
    /\ InspectionResult.target r = path
    /\ InspectionResult.resolved_path r = path
    /\ InspectionResult.error r = None
    /\ classify_object P o (terminal_name path) = Ok (InspectionResult.kind r)
    /\ match InspectionResult.info r with
       | InfoModule mi =>
           inspect_module P o ip ii = Ok mi
           /\ (InspectionResult.kind r = MODULE
               \/ InspectionResult.kind r = PACKAGE)
       | InfoClass ci =>
           inspect_class P o path ip = Ok ci /\ InspectionResult.kind r = CLASS
       | InfoMember i =>
           exists i0 src,
             _create_member_info P o (last_part (split dot path))
               (InspectionResult.kind r)
               (if contains dot path
                then join "." (removelast (split dot path)) else "")
               false = Ok i0
             /\ extract_source P o = Ok src
             /\ i = MemberInfo.set_source i0 src
             /\ InspectionResult.kind r <> MODULE
             /\ InspectionResult.kind r <> PACKAGE
             /\ InspectionResult.kind r <> CLASS
       end.
Proof.
  unfold inspect_path_body. intros H. inv_bind H.
  destruct a as [[o mp] attrs]. exists o, mp, attrs. split; [exact E|].
  fold (terminal_name path) in H. inv_bind H.
  destruct a;
    inv_bind H; try (inv_bind E1); try (inv_bind E1);
    injection E1 as <-; injection H as <-; cbn;
    repeat (split; [reflexivity|]); (split; [exact E0|]);
    eauto 12; eexists _, _; repeat (split; [eassumption|]);
    (split; [reflexivity|]); repeat split; discriminate.
Qed.

Lemma inspect_path_Ok_inv (path : string) (ip ii : bool)
    (r : InspectionResult.t) :
  inspect_path P path ip ii = Ok r ->
  inspect_path_body P path ip ii = Ok r
  \/ exists e msg, inspect_path_body P path ip ii = Raise e
                   /\ isinstance e Exception = true
                   /\ str_exc e = Ok msg /\ r = degraded path msg.
Proof.
  unfold inspect_path, try_except, catches. cbn [existsb].
  destruct (inspect_path_body P path ip ii) as [r'|e].
  - intros [= ->]. now left.
  - rewrite orb_false_r.
    destruct (isinstance e Exception) eqn:C; [|discriminate].
    intros H. inv_bind H. injection H as <-. right. now exists e, a.
Qed.

(** C2 (as amended).  Whatever the path, the envelope has [target] and
    [resolved_path] equal to it.  When the path resolves and the inspection
    completes, the [qualified_name] of the info record is the input path
    for a class and for a leaf reached through a dotted path; for a module
    or package it is the [__name__] of the module, not the path under which
    it was reached. *)
Theorem inspect_path_names (path : string) (ip ii : bool)
    (r : InspectionResult.t) :
  inspect_path P path ip ii = Ok r ->
  InspectionResult.target r = path
  /\ InspectionResult.resolved_path r = path
  /\ (InspectionResult.error r = None ->
      exists o mp attrs,
        resolve_dotted_path P path = Ok (o, mp, attrs)
        /\ match InspectionResult.info r with
           | InfoModule mi =>
               dunder_name P o = Ok (ModuleInfo.qualified_name mi)
           | InfoClass ci => ClassInfo.qualified_name ci = path
           | InfoMember i =>
               contains dot path = true -> MemberInfo.qualified_name i = path
           end).
Proof.
  intros H.
  destruct (inspect_path_Ok_inv _ _ _ _ H) as [B | (e & msg & _ & _ & _ & ->)].
  - destruct (inspect_path_body_inv _ _ _ _ B)
      as (o & mp & attrs & Hr & Ht & Hp & _ & _ & Hi).
    split; [exact Ht|]. split; [exact Hp|]. intros _.
    exists o, mp, attrs. split; [exact Hr|].
    destruct (InspectionResult.info r) as [i|ci|mi].
    + destruct Hi as (i0 & src & Hc & _ & -> & _). intros Hd.
      destruct (create_member_info_fields _ _ _ _ _ _ _ Hc) as (_ & _ & Hq & _).
      rewrite Hd in Hq. simpl. rewrite Hq. now apply qualified_name_of_dotted.
    + destruct Hi as [Hi _].
      now destruct (inspect_class_fields _ _ _ _ _ Hi) as (_ & _ & ? & _).
    + destruct Hi as [Hi _].
      destruct (inspect_module_inv _ _ _ _ _ Hi)
        as (mn & ? & ? & ? & ? & ? & ? & Hn & _ & _ & _ & _ & _ & _ & ->).
      exact Hn.
  - simpl. split; [reflexivity|]. split; [reflexivity | discriminate].
Qed.

(** C4 (as amended).  [inspect_path] intercepts every [Exception] raised by
    the resolution or a later step: when the message [str(e)] of the
    failure can be computed, the envelope has kind [VARIABLE], a minimal
    [MemberInfo] whose [name] and [qualified_name] are the raw path and
    which has no docstring, signature or source, and the message as
    [error]; in particular ["zzz.nonexistent.thing"], no prefix of which can
    be imported, yields kind [VARIABLE] and a non-empty error.  Two kinds of
    exception reach the caller: an exception outside [Exception]
    ([SystemExit], [KeyboardInterrupt]) raised by a step, which is not
    intercepted and passes through untouched; and what computing the
    message raises, when [str(e)] itself fails in the handler. *)
Theorem inspect_path_boundary (path : string) (ip ii : bool) :
  (forall r, inspect_path_body P path ip ii = Ok r ->
             inspect_path P path ip ii = Ok r)
  /\ (forall e msg,
        resolve_dotted_path P path = Raise e
        \/ inspect_path_body P path ip ii = Raise e ->
        isinstance e Exception = true ->
        str_exc e = Ok msg ->
        exists r,
          inspect_path P path ip ii = Ok r
          /\ InspectionResult.target r = path
          /\ InspectionResult.resolved_path r = path
          /\ InspectionResult.kind r = VARIABLE
          /\ InspectionResult.info r
             = InfoMember (MemberInfo.mk path VARIABLE path None None None
                             false false None false None)
          /\ InspectionResult.error r = Some msg)
  /\ (forall e,
        resolve_dotted_path P path = Raise e
        \/ inspect_path_body P path ip ii = Raise e ->
        isinstance e Exception = false ->
        inspect_path P path ip ii = Raise e)
  /\ (forall e e',
        resolve_dotted_path P path = Raise e
        \/ inspect_path_body P path ip ii = Raise e ->
        isinstance e Exception = true ->
        str_exc e = Raise e' ->
        inspect_path P path ip ii = Raise e')
  /\ (forall e',
        inspect_path P path ip ii = Raise e' ->
        (isinstance e' Exception = false
         /\ inspect_path_body P path ip ii = Raise e')
        \/ (exists e, inspect_path_body P path ip ii = Raise e
                      /\ isinstance e Exception = true
                      /\ str_exc e = Raise e'))
  /\ ((forall s, In s ["zzz.nonexistent.thing"; "zzz.nonexistent"; "zzz"] ->
                 exists e, import_module P s = Raise e
                           /\ isinstance e ImportError = true) ->
      exists r msg,
        inspect_path P "zzz.nonexistent.thing" ip ii = Ok r
        /\ InspectionResult.kind r = VARIABLE
        /\ InspectionResult.error r = Some msg
        /\ msg <> "").
Proof.
  assert (Hbody : forall p e,
             resolve_dotted_path P p = Raise e
             \/ inspect_path_body P p ip ii = Raise e ->
             inspect_path_body P p ip ii = Raise e).
  { intros p e [He|He]; [|exact He].
    unfold inspect_path_body. now rewrite He. }
  assert (Hcatch : forall p e,
             inspect_path_body P p ip ii = Raise e ->
             inspect_path P p ip ii
             = if isinstance e Exception
               then msg <- str_exc e ;; Ok (degraded p msg)
               else Raise e).
  { intros p e He. unfold inspect_path, try_except, catches.
    rewrite He. cbn [existsb]. now rewrite orb_false_r. }
  split; [|split; [|split; [|split; [|split]]]].
  - intros r H. unfold inspect_path. now rewrite H.
  - intros e msg He Hi Hs.
    exists (degraded path msg).
    rewrite (Hcatch _ _ (Hbody _ _ He)), Hi, Hs.
    repeat split; reflexivity.
  - intros e He Hi. now rewrite (Hcatch _ _ (Hbody _ _ He)), Hi.
  - intros e e' He Hi Hs. now rewrite (Hcatch _ _ (Hbody _ _ He)), Hi, Hs.
  - intros e' H.
    destruct (inspect_path_body P path ip ii) as [r|e] eqn:B.
    + unfold inspect_path in H. rewrite B in H. discriminate H.
    + rewrite (Hcatch _ _ B) in H.
      destruct (isinstance e Exception) eqn:Hi.
      * right. exists e. split; [reflexivity|]. split; [exact Hi|].
        destruct (str_exc e); cbn [bind] in H; [discriminate H|].
        now injection H as <-.
      * injection H as <-. now left.
  - intros Himp.
    assert (R : resolve_dotted_path P "zzz.nonexistent.thing"
                = Raise (not_found "zzz.nonexistent.thing")).
    { unfold resolve_dotted_path. apply resolve_from_all_abandoned.
      intros k Hk. unfold abandoned, try_split.
      assert (Hk' : k = 1%nat \/ k = 2%nat \/ k = 3%nat)
        by (cbn in Hk; lia).
      destruct Hk' as [->|[->| ->]].
      - destruct (Himp "zzz") as (e & He & Hi); [simpl; tauto|].
        exists e. cbn. rewrite He. split; [reflexivity|].
        unfold soft, catches. cbn [existsb]. now rewrite Hi.
      - destruct (Himp "zzz.nonexistent") as (e & He & Hi); [simpl; tauto|].
        exists e. cbn. rewrite He. split; [reflexivity|].
        unfold soft, catches. cbn [existsb]. now rewrite Hi.
      - destruct (Himp "zzz.nonexistent.thing") as (e & He & Hi);
          [simpl; tauto|].
        exists e. cbn. rewrite He. split; [reflexivity|].
        unfold soft, catches. cbn [existsb]. now rewrite Hi. }
    eexists _, _. rewrite (Hcatch _ _ (Hbody _ _ (or_introl R))).
    cbn. repeat split; try reflexivity. discriminate.
Qed.

End WithProvider.

(** C2, as stated, fails: [os.path] resolves, to the module whose
    [__name__] is [posixpath], and that is the [qualified_name] recorded. *)
Lemma inspect_path_module_name_counterexample :
  exists r mi,
    inspect_path (Heap.provider Heap.os_world) "os.path" false false = Ok r
    /\ InspectionResult.error r = None
    /\ InspectionResult.resolved_path r = "os.path"
    /\ InspectionResult.info r = InfoModule mi
    /\ ModuleInfo.qualified_name mi = "posixpath"
    /\ MemberInfo.qualified_name (info_base (InspectionResult.info r))
       <> "os.path".
Proof.
  eexists _, _. split; [vm_compute; reflexivity|].
  repeat split; try reflexivity. discriminate.
Qed.

Lemma inspect_path_names_witness :
  exists r i,
    inspect_path (Heap.provider Heap.os_world) "os.path.join" false false
    = Ok r
    /\ InspectionResult.resolved_path r = "os.path.join"
    /\ InspectionResult.info r = InfoMember i
    /\ MemberInfo.qualified_name i = "os.path.join".
Proof.
  eexists _, _. split; [vm_compute; reflexivity|].
  destruct (inspect_path_names (Heap.provider Heap.os_world) "os.path.join"
              false false _ eq_refl) as (_ & Hp & H).
  destruct (H eq_refl) as (o & mp & attrs & _ & Hq).
  split; [exact Hp|]. split; [reflexivity|]. exact (Hq eq_refl).
Defined.

(** C4, as stated, fails: importing [script] ends in [SystemExit], which no
    handler on the way intercepts, and [inspect_path] raises it; and when
    the import raises an exception whose message cannot be computed, what
    [inspect_path] raises is even an [Exception]. *)
Lemma inspect_path_raises_counterexample :
  inspect_path (Heap.provider Heap.exiting_script_world) "script" false false
  = Raise (mk_exn SystemExit "0")
  /\ (inspect_path (Heap.provider Heap.unprintable_world) "mod" false false
      = Raise (mk_exn TypeError "__str__ returned non-string (type int)")
      /\ isinstance (mk_exn TypeError "__str__ returned non-string (type int)")
           Exception = true).
Proof. repeat split. Qed.

Lemma inspect_path_boundary_witness :
  exists r msg,
    inspect_path (Heap.provider Heap.empty_world) "zzz.nonexistent.thing"
      false false = Ok r
    /\ InspectionResult.kind r = VARIABLE
    /\ InspectionResult.error r = Some msg
    /\ msg <> "".
Proof.
  apply (proj2 (proj2 (proj2 (proj2 (proj2 (inspect_path_boundary
           (Heap.provider Heap.empty_world) "zzz.nonexistent.thing"
           false false)))))).
  intros s Hs. eexists. split; [reflexivity|reflexivity].
Defined.

End PathFacts.
